(* ===== verification/_CoqProject ===== *)
-Q . S2P
Prelude.v
JsRuntime.v
Squares.v
Random.v
Clock.v
Board.v
Session.v
Game.v
Spec.v
Refinement.v
Screens.v
