(* ===== verification/Prelude.v ===== *)
(** * ChessBoardMaster: a verification development of [src/src/App.js]

    PROGRAM.  [src/src/App.js] is a React application: a timed reaction
    game on a chessboard.  A random square is named in algebraic notation
    from a random side's point of view, and the player must click it on a
    640x640 canvas before a 60-second clock runs out.  Its parts are

    - [Coordinates] (lines 75-92): a board cell and [toChessBoardSquare],
      the label of a cell seen from [SIDE.WHITE] or [SIDE.BLACK];
    - the random helpers [getRandomInt], [randomPiecesColor] and
      [randomCoordinates] (lines 24-36), built on [Math.random];
    - [Clock] (lines 38-73): a component holding [seconds], started by a
      [setInterval] of one second, calling [props.onDone] when it runs out;
    - [GameBoard] (lines 180-248): draws the board on a canvas when it
      mounts and judges clicks, painting the clicked cell green or red and
      scheduling a [setTimeout] of 200 ms that repaints it (and, for a
      correct click, calls [props.onCorrect]);
    - [GameScreen] (lines 108-178): holds the current [color] (side) and
      [target], replaced by [correct] after a correct click; renders the
      label, the [Clock] and the QUIT button;
    - [App] (lines 300-371): holds [score], [highScore], [isNewHighScore]
      and [screen]; [changeScreen] and [incScore] are its only state
      changes; [highScore] is read from and written to [localStorage];
    - [MainMenuScreen], [GameOverScreen], [StartButton], [ExitButton]
      (lines 94-106, 250-298): presentational; they decide which
      navigation buttons exist on which screen and what each screen shows.

    The components interact through React props (callbacks [onDone],
    [onCorrect], [incScore], [changeScreen]), through the browser's timer
    queue ([setInterval], [setTimeout]) and through [localStorage].

    LIBRARY.  One file per component, in dependency order.

    - [Prelude] (this file): the notation scope [cbm_scope], the hint
      databases [cbm] and [cbm_rw], the tactics [cbm_zcase] and [cbm_lia],
      JavaScript's [%] ([js_rem]) and [Math.floor(a / b)]
      ([math_floor_div]) on integers, the [for_loop] combinator for
      JavaScript [for] loops with its invariant lemma, and the
      reflexive-transitive closure [star] of a step relation (notation
      [a ⇝*[ R ] b]) with invariant and preorder induction lemmas.
    - [JsRuntime]: the JavaScript built-ins the program calls, written
      out: [Number.prototype.toString] on integers
      ([js_number_to_string]), [parseInt] ([js_parseInt], [None] for
      [NaN]), [x || 0] on [getItem]'s result, array indexing that yields
      [undefined], string concatenation with [undefined]; [localStorage]
      as the class [WebStorage] with the laws [WebStorageLaws] and a
      [gmap] instance.  Main lemma: [parseInt(n.toString()) = n].
    - [Squares], module [Coordinates]: [SIDE], the class [Coordinates]
      and [toChessBoardSquare], with a reference decoder
      [fromChessBoardSquare].  Theorems: the labels of the 64 cells, the
      round trip and soundness of decoding, injectivity for each side,
      Black's label is White's label of the half-turned cell, the empty
      label exactly for an invalid side.
    - [Random], module [Random]: [Math.random] is an oracle (a stream of
      52-bit draws) threaded through a state monad [RandM]; the draws
      happen in the order of the code.  Theorems: bounds of
      [getRandomInt], validity of the target and side, and exact
      uniformity of [randomCoordinates] (each cell from [2^49 * 2^49]
      pairs of draws).
    - [Clock], module [Clock]: [seconds] and the liveness of the
      interval; [interval_tick] is the [setInterval] callback.  React's
      [setState] may be applied at once (React 17 outside handlers) or
      batched (React 18), and the source reads [this.state.seconds] right
      after it; the mode is a parameter.  Theorems: [onDone] fires exactly
      once, on tick [fire_tick] (60 or 61 for [GAME_SECONDS]), and never
      after [componentWillUnmount].
    - [Board], module [GameBoard]: the canvas at cell granularity (a
      [gmap] from cells to colours and the current [fillStyle]), the
      drawing loops of [componentDidMount], [onClick] and the record
      [Timeout] of the callback it schedules.  Theorems: the drawn picture
      in closed form, the click verdict, the repaint after the callback,
      off-board clicks.
    - [Session], module [App]: [AppState], the constructor reading
      [localStorage], [changeScreen], [incScore] (with its write), and the
      navigation buttons of each screen.  Its theorems are proved against
      any store satisfying [WebStorageLaws]: the high score round trip,
      storage agreement, the arithmetic of [incScore], a whole session of
      [k] correct clicks, a [NaN] high score that sticks, and the buttons
      against the spec's Screen Navigator ([spec_transition]).
    - [Game], module [Game]: the application as a step function on a
      [World]: the [App] state, the store, the mounted [GameScreen]
      subtree (side, target, clock, canvas and an instance number), the
      FIFO queue of pending [setTimeout] callbacks tagged with the
      instance that scheduled them, and the oracle.  Events are button
      presses, interval firings, canvas clicks and timeout firings; each
      runs to completion.  Theorems: an invariant of all reachable worlds
      (mounted exactly on [BOARD], valid target and side, store agrees
      with [highScore]), screen changes only along the spec's
      transitions, the high score never decreases, the session ends after
      [fire_tick] interval firings, and the stale-callback behaviours: a
      callback of an unmounted round still scores, a double click scores
      twice, a callback firing on the menu sets the new-high-score flag
      there, and a round started by RETRY holds one point per correct
      click of the previous round still pending.
    - [Spec], module [SessionSpec]: not a translation of the code but the
      contract of [spec.md] (sections 4.4-4.6): the session controller as
      an abstract machine with a nondeterministic target generator, and
      its invariant (a round exists exactly on the board, the menu never
      shows a new high score, a new high score is the score, the persisted
      value is the high score).
    - [Refinement], module [Refinement]: a forward simulation of
      [SessionSpec.step] by [Game.step] for runs in which each click's
      callback fires before the next input (the timing the spec's section
      5 assumes) and with React's batched [setState], whose tick compares
      the value from before the decrement as the spec's Timer does.  The
      simulation is proved one kind of input at a time (press, tick,
      click) and extended to runs; the spec's invariant then holds of the
      code on such runs.  With synchronous [setState] the simulation fails
      at the tick from one second ([legacy_clock_breaks_refinement]).
    - [Screens], module [Screens]: the render functions
      ([MainMenuScreen], [GameScreen.render], [GameOverScreen],
      [App.render]) as functions from the state to the texts and colours
      shown.  Theorems: the label shown names exactly the cell a click
      must hit, the clock display during a session ([1:0], then [0:59]
      down, never negative), the menu shows the saved high score after a
      reload.

    BOUNDS AND FUEL.  No definition needs fuel except the digit loops of
    [JsRuntime], whose fuel is the number of bits of the number (enough
    for every digit since each digit divides by at least two).  JavaScript
    numbers are integers [Z]: the program's values (scores, seconds, cell
    indices below 8, pixel offsets) stay far below [2^53], where doubles
    are exact.  [Math.random()] returns [k / 2^52] with [0 <= k < 2^52],
    the V8 representation.

    NOT MODELLED.  JSX markup, styles and [App.css] (presentation only);
    [console.log]; pixels below the 80-pixel cell (every [fillRect] of the
    program covers exactly one cell); React's scheduling beyond the two
    [setState] modes; timers other than in the order they were scheduled
    (all [setTimeout]s have the same 200 ms delay, and interval firings
    are explicit events).

    OPEN WORK.  Bias bounds of [getRandomInt] for widths that are not
    powers of two (the program only uses width 8, which is exact); a
    refinement for runs with overlapping callbacks against a spec that
    discards stale callbacks (the [Game] theorems show the code does not). *)

From Stdlib Require Import ZArith Lia String Ascii List.
From stdpp Require Import base decidable strings gmap list.

Declare Scope cbm_scope.
Delimit Scope cbm_scope with cbm.
Open Scope cbm_scope.

Create HintDb cbm.
Create Rewrite HintDb cbm_rw.

(** ** JavaScript integer arithmetic

    The program computes on JavaScript numbers that always hold integers
    here.  [Math.floor(a / b)] with [b > 0] is floor division and [a % b]
    is the remainder that takes the sign of the dividend. *)

Definition math_floor_div (a b : Z) : Z := Z.div a b.
Definition js_rem (a b : Z) : Z := Z.rem a b.


Lemma js_rem_nonneg (a b : Z) : (0 <= a)%Z -> (0 < b)%Z -> js_rem a b = (a mod b)%Z.
Proof. intros. unfold js_rem. apply Z.rem_mod_nonneg; lia. Qed.

Lemma js_rem_2_zero (a : Z) : (js_rem a 2 = 0 <-> Z.even a = true)%Z.
Proof.
  unfold js_rem. rewrite Z.rem_mod_eq_0 by lia. rewrite Zmod_even.
  destruct (Z.even a); split; congruence.
Qed.

Lemma js_rem_2_eqb (a : Z) : (js_rem a 2 =? 0)%Z = Z.even a.
Proof.
  destruct (Z.eqb_spec (js_rem a 2) 0) as [E|E].
  - by apply js_rem_2_zero in E.
  - destruct (Z.even a) eqn:Ev; [|done]. by apply js_rem_2_zero in Ev.
Qed.

Lemma floor_div_bounds (a b k : Z) :
  (0 < b)%Z -> (b * k <= a < b * (k + 1))%Z -> math_floor_div a b = k.
Proof. intros. unfold math_floor_div. symmetry. apply Z.div_unique_pos with (a - b * k)%Z; lia. Qed.

(** ** JavaScript [for] loops

    [for_loop n i body s] runs [body] on the counters [i, i+1, ..., i+n-1]
    from state [s]: the loop [for (let k = i; k < i + n; k++) body(k)]. *)

Fixpoint for_loop {S : Type} (n : nat) (i : Z) (body : Z -> S -> S) (s : S) : S :=
  match n with
  | O => s
  | Datatypes.S n' => for_loop n' (i + 1)%Z body (body i s)
  end.

Lemma for_loop_snoc {S} (n : nat) (i : Z) (body : Z -> S -> S) (s : S) :
  for_loop (Datatypes.S n) i body s = body (i + Z.of_nat n)%Z (for_loop n i body s).
Proof.
  revert i s. induction n as [|n IH]; intros i s.
  - simpl. f_equal. lia.
  - change (for_loop (Datatypes.S (Datatypes.S n)) i body s)
      with (for_loop (Datatypes.S n) (i + 1)%Z body (body i s)).
    rewrite IH. simpl. f_equal. lia.
Qed.

(** An invariant indexed by the number of iterations done. *)
Lemma for_loop_inv {S} (P : nat -> S -> Prop) (n : nat) (i : Z)
      (body : Z -> S -> S) (s : S) :
  P 0 s ->
  (forall k s', (k < n)%nat -> P k s' -> P (Datatypes.S k) (body (i + Z.of_nat k)%Z s')) ->
  P n (for_loop n i body s).
Proof.
  intros H0 Hstep. induction n as [|n IH].
  - exact H0.
  - rewrite for_loop_snoc. apply Hstep; [lia|].
    apply IH. intros k s' Hk. apply Hstep. lia.
Qed.

(** ** Transition systems

    [star R] is the reflexive-transitive closure of a step relation; the
    state machines of the development use it for reachability. *)

Section Star.
Context {A : Type} (R : A -> A -> Prop).

Inductive star : A -> A -> Prop :=
| star_refl a : star a a
| star_step a b c : R a b -> star b c -> star a c.

Lemma star_one a b : R a b -> star a b.
Proof. eauto using star. Qed.

Lemma star_trans a b c : star a b -> star b c -> star a c.
Proof. induction 1; eauto using star. Qed.

(** A property preserved by every step holds along every path. *)
Lemma star_invariant (P : A -> Prop) :
  (forall a b, R a b -> P a -> P b) -> forall a b, star a b -> P a -> P b.
Proof. intros Hstep a b H. induction H; eauto. Qed.

(** A relation between the two ends of every step (for instance a
    monotone quantity) extends to paths when it is a preorder. *)
Lemma star_preorder (Q : A -> A -> Prop) :
  (forall a, Q a a) -> (forall a b c, Q a b -> Q b c -> Q a c) ->
  (forall a b, R a b -> Q a b) -> forall a b, star a b -> Q a b.
Proof. intros Hr Ht Hs a b H. induction H; eauto. Qed.
End Star.

Notation "a '⇝*[' R ']' b" := (star R a b) (at level 70, format "a  ⇝*[ R ]  b") : cbm_scope.

#[export] Hint Constructors star : cbm.
#[export] Hint Resolve star_one star_trans : cbm.
#[export] Hint Resolve js_rem_nonneg : cbm.

(** Case analysis on the boolean comparisons of [Z] left in a goal. *)
Ltac cbm_zcase :=
  repeat match goal with
  | |- context [Z.eqb ?a ?b] => destruct (Z.eqb_spec a b)
  | |- context [Z.ltb ?a ?b] => destruct (Z.ltb_spec a b)
  | |- context [Z.leb ?a ?b] => destruct (Z.leb_spec a b)
  | H : context [Z.eqb ?a ?b] |- _ => destruct (Z.eqb_spec a b)
  | H : context [Z.ltb ?a ?b] |- _ => destruct (Z.ltb_spec a b)
  | H : context [Z.leb ?a ?b] |- _ => destruct (Z.leb_spec a b)
  end.

(** Arithmetic with floor division and remainders. *)
Ltac cbm_lia :=
  unfold math_floor_div, js_rem in *;
  Z.div_mod_to_equations; Z.quot_rem_to_equations; lia.
