(* ===== verification/JsRuntime.v ===== *)
(** * JsRuntime: the JavaScript built-ins [App.js] relies on

    The program converts numbers to strings (the template literal
    [`${8 - this.y}`] in [toChessBoardSquare], [newScore.toString()] in
    [incScore]), reads them back with [parseInt] (the [App] constructor),
    indexes an array that may be out of range ([letters[this.x]]) and keeps
    one value in [localStorage].  None of this is code of the repository:
    the definitions follow the ECMAScript specification for the integer
    values the program handles, and they are not mapped to source lines.

    - [js_number_to_string]: [Number::toString] on an integer: its decimal
      digits, with a leading ["-"] when negative.
    - [js_parseInt]: [parseInt] without a radix (ECMAScript 19.2.5): skip
      leading white space, read a sign, read a ["0x"] prefix as radix 16,
      then the longest prefix of digits; [None] is [NaN].  White space is
      the ASCII part of [StrWhiteSpaceChar] (strings here are byte strings).
      [parseInt("-0")] is [-0] in JavaScript and [0] here.
    - [js_or_zero]: the argument [getItem(k) || 0] as [parseInt] sees it
      after its [ToString]: [null] and [""] are falsy, so both become the
      number [0], whose string is ["0"].
    - [js_array_get], [js_concat_undefined]: [a[i]] on an array of strings
      ([undefined] out of range) and [+] of a possibly [undefined] value with
      a string ([undefined] prints as ["undefined"]).
    - [WebStorage]: [localStorage] as an interface with its two laws;
      [gmap_storage] implements it with a [gmap string string].

    Main results: [parseInt_toString] (every integer the program writes is
    read back unchanged) and the laws of [gmap_storage]. *)

From Stdlib Require Import ZArith Lia String Ascii List.
From stdpp Require Import base decidable strings gmap list.
From S2P Require Import Prelude.

(** ** Decimal digits *)

Definition digit_char (d : N) : ascii := ascii_of_N (48 + d).

(** The value of a character as a digit of [radix] (at most 36): ['0'..'9'],
    then ['a'..'z'] and ['A'..'Z'] for 10 to 35. *)
Definition digit_value (radix : N) (c : ascii) : option N :=
  let n := N_of_ascii c in
  let v :=
    if (48 <=? n)%N && (n <=? 57)%N then Some (n - 48)%N
    else if (97 <=? n)%N && (n <=? 122)%N then Some (n - 87)%N
    else if (65 <=? n)%N && (n <=? 90)%N then Some (n - 55)%N
    else None in
  match v with
  | Some d => if (d <? radix)%N then Some d else None
  | None => None
  end.

(** Little-endian decimal digits; [fuel] bounds the number of digits. *)
Fixpoint digits_le (fuel : nat) (n : N) : list N :=
  match fuel with
  | O => []
  | Datatypes.S f => if (n =? 0)%N then [] else (n mod 10)%N :: digits_le f (n / 10)%N
  end.

Definition value_le (ds : list N) : N := foldr (fun d a => a * 10 + d)%N 0%N ds.

(** [N.size n] bits are more than enough decimal digits. *)
Definition N_to_decimal (n : N) : string :=
  if (n =? 0)%N then "0"
  else string_of_list_ascii (map digit_char (rev (digits_le (N.to_nat (N.size n)) n))).

Definition js_number_to_string (z : Z) : string :=
  match z with
  | Z0 => "0"
  | Zpos p => N_to_decimal (Npos p)
  | Zneg p => "-" +:+ N_to_decimal (Npos p)
  end.

(** ** [parseInt] *)

Definition is_js_whitespace (c : ascii) : bool :=
  match N_of_ascii c with
  | 9 | 10 | 11 | 12 | 13 | 32 => true
  | _ => false
  end%N.

Fixpoint trim_start (l : list ascii) : list ascii :=
  match l with
  | c :: r => if is_js_whitespace c then trim_start r else l
  | [] => []
  end.

(** The longest prefix of digits; [acc] is [None] until a digit is read. *)
Fixpoint scan_digits (radix : N) (acc : option N) (l : list ascii) : option N :=
  match l with
  | [] => acc
  | c :: r =>
      match digit_value radix c with
      | Some d => scan_digits radix (Some (from_option id 0%N acc * radix + d)%N) r
      | None => acc
      end
  end.

(** A leading sign, then a ["0x"] or ["0X"] prefix (steps 4 to 11 of the
    algorithm). *)
Definition parse_sign (l : list ascii) : Z * list ascii :=
  match l with
  | c :: r => if (c =? "-")%char then ((-1)%Z, r)
              else if (c =? "+")%char then (1%Z, r) else (1%Z, l)
  | [] => (1%Z, l)
  end.

Definition parse_radix (l : list ascii) : N * list ascii :=
  match l with
  | c0 :: c1 :: r => if (c0 =? "0")%char && ((c1 =? "x")%char || (c1 =? "X")%char)
                     then (16%N, r) else (10%N, l)
  | _ => (10%N, l)
  end.

Definition js_parseInt (s : string) : option Z :=
  let '(sign, l) := parse_sign (trim_start (list_ascii_of_string s)) in
  let '(radix, l) := parse_radix l in
  match scan_digits radix None l with
  | Some v => Some (sign * Z.of_N v)%Z
  | None => None
  end.

(** ** [||], array indexing and [undefined] *)

Definition js_or_zero (v : option string) : string :=
  match v with
  | Some s => if String.eqb s "" then "0" else s
  | None => "0"
  end.

Definition js_array_get {A} (l : list A) (i : Z) : option A :=
  if (0 <=? i)%Z then l !! Z.to_nat i else None.

Definition js_concat_undefined (o : option string) (s : string) : string :=
  match o with
  | Some a => a +:+ s
  | None => "undefined" +:+ s
  end.

(** ** [localStorage] *)

Class WebStorage (St : Type) := {
  getItem : St -> string -> option string;
  setItem : St -> string -> string -> St
}.

Class WebStorageLaws (St : Type) `{WebStorage St} := {
  getItem_setItem_eq st k v : getItem (setItem st k v) k = Some v;
  getItem_setItem_ne st k k' v : k <> k' -> getItem (setItem st k v) k' = getItem st k'
}.

#[export] Instance gmap_storage : WebStorage (gmap string string) := {|
  getItem st k := st !! k;
  setItem st k v := <[k:=v]> st
|}.

#[export] Instance gmap_storage_laws : WebStorageLaws (gmap string string).
Proof.
  split; intros; simpl.
  - apply lookup_insert_eq.
  - by apply lookup_insert_ne.
Qed.

(** ** Properties of the number conversions *)

Lemma digits_le_value (fuel : nat) (n : N) :
  (n < 2 ^ N.of_nat fuel)%N -> value_le (digits_le fuel n) = n.
Proof.
  revert n. induction fuel as [|f IH]; intros n Hn; simpl.
  - simpl in Hn. lia.
  - destruct (N.eqb_spec n 0) as [->|Hn0]; [done|]. simpl.
    rewrite IH.
    + pose proof (N.div_mod n 10). lia.
    + rewrite Nat2N.inj_succ, N.pow_succ_r' in Hn.
      apply N.Div0.div_lt_upper_bound. lia.
Qed.

Lemma digits_le_small (fuel : nat) (n : N) : Forall (fun d => d < 10)%N (digits_le fuel n).
Proof.
  revert n. induction fuel as [|f IH]; intros n; simpl; [constructor|].
  destruct (n =? 0)%N; constructor; auto. apply N.mod_lt. lia.
Qed.

Lemma digit_char_facts (d : N) : (d < 10)%N ->
  digit_value 10 (digit_char d) = Some d /\ is_js_whitespace (digit_char d) = false /\
  (digit_char d =? "-")%char = false /\ (digit_char d =? "+")%char = false /\
  (digit_char d =? "x")%char = false /\ (digit_char d =? "X")%char = false.
Proof.
  intros Hd. assert (d = 0 \/ d = 1 \/ d = 2 \/ d = 3 \/ d = 4 \/ d = 5 \/ d = 6 \/
                     d = 7 \/ d = 8 \/ d = 9)%N as Hc by lia.
  destruct_or! Hc; subst d; split_and!; reflexivity.
Qed.

Lemma scan_decimal (acc : N) (ds : list N) : Forall (fun d => d < 10)%N ds ->
  scan_digits 10 (Some acc) (map digit_char ds) = Some (fold_left (fun a d => a * 10 + d)%N ds acc).
Proof.
  intros Hall. revert acc. induction Hall as [|d ds Hd _ IH]; intros acc; [done|].
  simpl. rewrite (proj1 (digit_char_facts d Hd)). apply IH.
Qed.

(** Digits, with nothing before them, read as the number they spell. *)
Lemma parse_digits (ds : list N) : ds <> [] -> Forall (fun d => d < 10)%N ds ->
  parse_radix (map digit_char ds) = (10%N, map digit_char ds) /\
  scan_digits 10 None (map digit_char ds) = Some (fold_left (fun a d => a * 10 + d)%N ds 0%N).
Proof.
  intros Hne Hall. destruct ds as [|d0 ds]; [done|].
  pose proof (Forall_inv Hall) as H0. split.
  - destruct ds as [|d1 ds]; [done|].
    pose proof (Forall_inv (Forall_inv_tail Hall)) as H1. simpl.
    destruct (digit_char_facts d1 H1) as (_ & _ & _ & _ & -> & ->).
    by rewrite andb_false_r.
  - simpl. rewrite (proj1 (digit_char_facts d0 H0)).
    by apply scan_decimal, (Forall_inv_tail Hall).
Qed.

Lemma digits_not_blank (ds : list N) : ds <> [] -> Forall (fun d => d < 10)%N ds ->
  trim_start (map digit_char ds) = map digit_char ds /\
  parse_sign (map digit_char ds) = (1%Z, map digit_char ds).
Proof.
  intros Hne Hall. destruct ds as [|d0 ds]; [done|]. simpl.
  destruct (digit_char_facts d0 (Forall_inv Hall)) as (_ & -> & -> & -> & _).
  done.
Qed.

Lemma N_to_decimal_digits (p : positive) : exists ds, ds <> [] /\ Forall (fun d => d < 10)%N ds /\
  list_ascii_of_string (N_to_decimal (Npos p)) = map digit_char ds /\
  fold_left (fun a d => a * 10 + d)%N ds 0%N = Npos p.
Proof.
  unfold N_to_decimal. simpl.
  set (fuel := Pos.to_nat (Pos.size p)).
  exists (rev (digits_le fuel (Npos p))). split_and!.
  - assert (exists f, fuel = Datatypes.S f) as [f ->] by (exists (pred fuel); subst fuel; lia).
    simpl. intros Hr. apply (f_equal length) in Hr. rewrite length_app in Hr. simpl in Hr. lia.
  - apply Forall_rev, digits_le_small.
  - apply list_ascii_of_string_of_list_ascii.
  - rewrite <- fold_left_rev_right, rev_involutive.
    apply digits_le_value. subst fuel. rewrite positive_nat_N.
    apply (N.size_gt (Npos p)).
Qed.

(** [parseInt] reads back every integer written by [Number::toString]. *)
Lemma parseInt_toString (z : Z) : js_parseInt (js_number_to_string z) = Some z.
Proof.
  destruct z as [|p|p]; [reflexivity| |];
    destruct (N_to_decimal_digits p) as (ds & Hne & Hall & Hs & Hv);
    destruct (digits_not_blank ds Hne Hall) as [Htrim Hsign];
    destruct (parse_digits ds Hne Hall) as [Hradix Hscan];
    unfold js_parseInt, js_number_to_string.
  - rewrite Hs, Htrim, Hsign, Hradix, Hscan, Hv. reflexivity.
  - change (list_ascii_of_string ("-" +:+ N_to_decimal (N.pos p)))
      with ("-"%char :: list_ascii_of_string (N_to_decimal (N.pos p))).
    rewrite Hs.
    change (trim_start ("-"%char :: map digit_char ds)) with ("-"%char :: map digit_char ds).
    change (parse_sign ("-"%char :: map digit_char ds)) with ((-1)%Z, map digit_char ds).
    cbv beta iota. rewrite Hradix, Hscan, Hv. reflexivity.
Qed.

#[export] Hint Rewrite parseInt_toString : cbm_rw.

Lemma js_number_to_string_nonempty (z : Z) : js_number_to_string z <> "".
Proof.
  destruct z as [|p|p]; [done| |done].
  destruct (N_to_decimal_digits p) as (ds & Hne & _ & Hs & _). simpl.
  intros Hz. rewrite Hz in Hs. destruct ds; done.
Qed.

Lemma js_concat_undefined_nonempty (o : option string) (s : string) :
  s <> "" -> js_concat_undefined o s <> "".
Proof.
  intros Hs. destruct o as [a|]; [|done]. simpl.
  destruct a; [exact Hs | discriminate].
Qed.
