(* ===== verification/Squares.v ===== *)
(** * Squares: [SIDE], [Coordinates] and [toChessBoardSquare]

    Models lines 4-7 ([SIDE]) and 75-92 (class [Coordinates]) of
    [src/src/App.js].  A side is the JavaScript string ["WHITE"] or
    ["BLACK"]; [toChessBoardSquare] is a [switch] on that string with a
    default branch returning [""].  A cell is a pair of JavaScript numbers,
    kept as [Z] so that cells off the board can be written down.

    Results: on the 64 cells of the board the label is the two-character
    algebraic name given by [square_name] ([toChessBoardSquare_on_board]),
    the two sides are related by the half-turn [rotate]
    ([toChessBoardSquare_black_rotate]), [fromChessBoardSquare] decodes
    every label back to its cell and accepts nothing else (a bijection
    between cells and names for each side), an unknown side yields [""],
    and a column off the board prints as ["undefined"]. *)

From Stdlib Require Import ZArith Lia String Ascii List.
From stdpp Require Import base decidable strings gmap list.
From S2P Require Import Prelude JsRuntime.

(** [const SIDE = Object.freeze({ WHITE: "WHITE", BLACK: "BLACK" })] *)
Definition SIDE_WHITE : string := "WHITE".
Definition SIDE_BLACK : string := "BLACK".

Definition is_side (s : string) : bool :=
  String.eqb s SIDE_WHITE || String.eqb s SIDE_BLACK.

Module Coordinates.

(** [constructor(x, y) { this.x = x; this.y = y; }] *)
Record Coordinates := mkCoordinates { x : Z; y : Z }.

#[export] Instance Coordinates_eq_dec : EqDecision Coordinates.
Proof. solve_decision. Defined.

Definition letters : list string := ["A"; "B"; "C"; "D"; "E"; "F"; "G"; "H"].

(** [toChessBoardSquare = (perspective) => { switch (perspective) ... }] *)
Definition toChessBoardSquare (c : Coordinates) (perspective : string) : string :=
  if String.eqb perspective SIDE_WHITE then
    js_concat_undefined (js_array_get letters (x c)) (js_number_to_string (8 - y c))
  else if String.eqb perspective SIDE_BLACK then
    js_concat_undefined (js_array_get letters (7 - x c)) (js_number_to_string (y c + 1))
  else "".

(** ** Reference notions *)

Definition on_board (c : Coordinates) : bool :=
  (0 <=? x c)%Z && (x c <=? 7)%Z && (0 <=? y c)%Z && (y c <=? 7)%Z.

(** The algebraic name of the square on [file] (0 is "A") and [rank]
    (1 to 8). *)
Definition square_name (file rank : Z) : string :=
  String (ascii_of_N (65 + Z.to_N file)) (String (ascii_of_N (48 + Z.to_N rank)) "").

(** The half-turn of the board. *)
Definition rotate (c : Coordinates) : Coordinates := mkCoordinates (7 - x c) (7 - y c).

(** Reading a name back, as a player looking from [perspective] would. *)
Definition fromChessBoardSquare (s : string) (perspective : string) : option Coordinates :=
  match list_ascii_of_string s with
  | [f; r] =>
      let file := (Z.of_N (N_of_ascii f) - 65)%Z in
      let rank := (Z.of_N (N_of_ascii r) - 48)%Z in
      if (0 <=? file)%Z && (file <=? 7)%Z && (1 <=? rank)%Z && (rank <=? 8)%Z then
        if String.eqb perspective SIDE_WHITE then Some (mkCoordinates file (8 - rank))
        else if String.eqb perspective SIDE_BLACK then Some (mkCoordinates (7 - file) (rank - 1))
        else None
      else None
  | _ => None
  end.

(** The 64 cells, row by row. *)
Definition all_cells : list Coordinates :=
  flat_map (fun j => map (fun i => mkCoordinates i j) [0; 1; 2; 3; 4; 5; 6; 7]%Z)
           [0; 1; 2; 3; 4; 5; 6; 7]%Z.

(** ** Finite checks over the board *)

Lemma Z_0_7_cases (z : Z) : (0 <= z <= 7)%Z ->
  z = 0%Z \/ z = 1%Z \/ z = 2%Z \/ z = 3%Z \/ z = 4%Z \/ z = 5%Z \/ z = 6%Z \/ z = 7%Z.
Proof. lia. Qed.

Lemma on_board_spec (c : Coordinates) :
  on_board c = true <-> (0 <= x c <= 7)%Z /\ (0 <= y c <= 7)%Z.
Proof. unfold on_board. rewrite !andb_true_iff, !Z.leb_le. tauto. Qed.

Lemma on_board_all_cells (c : Coordinates) : on_board c = true -> In c all_cells.
Proof.
  intros Hc. apply on_board_spec in Hc as [Hx Hy]. destruct c as [cx cy]; cbn [x y] in Hx, Hy. unfold all_cells.
  apply in_flat_map. exists cy. split.
  - pose proof (Z_0_7_cases cy Hy) as Hc. destruct_or! Hc; subst; simpl; tauto.
  - apply (in_map (fun i => mkCoordinates i cy)). pose proof (Z_0_7_cases cx Hx) as Hc. destruct_or! Hc; subst; simpl; tauto.
Qed.

(** A boolean property checked on [all_cells] holds on the whole board. *)
Lemma board_forall (P : Coordinates -> bool) :
  forallb P all_cells = true -> forall c, on_board c = true -> P c = true.
Proof.
  intros Hall c Hc. rewrite forallb_forall in Hall. by apply Hall, on_board_all_cells.
Qed.

(** ** Labels *)

Lemma labels_on_board (c : Coordinates) :
  on_board c = true ->
  toChessBoardSquare c SIDE_WHITE = square_name (x c) (8 - y c) /\
  toChessBoardSquare c SIDE_BLACK = square_name (7 - x c) (y c + 1).
Proof.
  intros Hc.
  pose proof (board_forall
    (fun c => String.eqb (toChessBoardSquare c SIDE_WHITE) (square_name (x c) (8 - y c)) &&
              String.eqb (toChessBoardSquare c SIDE_BLACK) (square_name (7 - x c) (y c + 1)))
    ltac:(vm_compute; reflexivity) c Hc) as H.
  apply andb_true_iff in H as [H1 H2]. apply String.eqb_eq in H1, H2. done.
Qed.

(** C23: on every cell of the board, [toChessBoardSquare] seen from White
    is the algebraic name with file [letters[x]] and rank [8 - y], and
    seen from Black the name with file [letters[7 - x]] and rank [y + 1]:
    a letter from A to H followed by a digit from 1 to 8. *)
Theorem toChessBoardSquare_on_board (c : Coordinates) :
  on_board c = true ->
  toChessBoardSquare c SIDE_WHITE = square_name (x c) (8 - y c) /\
  toChessBoardSquare c SIDE_BLACK = square_name (7 - x c) (y c + 1).
Proof. exact (labels_on_board c). Qed.

(** The spec's examples: (0,0) is A8 for White and H1 for Black, (7,7)
    is H1 for White and A8 for Black. *)
Lemma toChessBoardSquare_on_board_witness :
  on_board (mkCoordinates 0 0) = true /\ on_board (mkCoordinates 7 7) = true /\
  toChessBoardSquare (mkCoordinates 0 0) SIDE_WHITE = "A8" /\
  toChessBoardSquare (mkCoordinates 0 0) SIDE_BLACK = "H1" /\
  toChessBoardSquare (mkCoordinates 7 7) SIDE_WHITE = "H1" /\
  toChessBoardSquare (mkCoordinates 7 7) SIDE_BLACK = "A8".
Proof.
  destruct (toChessBoardSquare_on_board (mkCoordinates 0 0) eq_refl) as [Hw0 Hb0].
  destruct (toChessBoardSquare_on_board (mkCoordinates 7 7) eq_refl) as [Hw7 Hb7].
  split_and!; [reflexivity | reflexivity | rewrite Hw0 | rewrite Hb0 | rewrite Hw7 | rewrite Hb7];
    reflexivity.
Defined.

(** C27: the Black label of any cell, on the board or not, is the White
    label of the cell a half-turn away. *)
Theorem toChessBoardSquare_black_rotate (c : Coordinates) :
  toChessBoardSquare c SIDE_BLACK = toChessBoardSquare (rotate c) SIDE_WHITE.
Proof.
  unfold toChessBoardSquare, rotate. cbn -[js_concat_undefined js_array_get js_number_to_string].
  replace (8 - (7 - y c))%Z with (y c + 1)%Z by lia. reflexivity.
Qed.

(** C28: the label is empty exactly when the perspective is neither side:
    the [default] branch of the [switch] returns [""] and both sides
    always produce a non-empty label, on the board or off it. *)
Theorem toChessBoardSquare_empty_iff (c : Coordinates) (p : string) :
  toChessBoardSquare c p = "" <-> is_side p = false.
Proof.
  unfold toChessBoardSquare, is_side.
  destruct (String.eqb p SIDE_WHITE), (String.eqb p SIDE_BLACK); simpl;
    split; try done; intros H; exfalso; revert H;
    apply js_concat_undefined_nonempty, js_number_to_string_nonempty.
Qed.

Lemma toChessBoardSquare_empty_iff_witness :
  toChessBoardSquare (mkCoordinates 3 4) "RED" = "" /\
  toChessBoardSquare (mkCoordinates 3 4) SIDE_WHITE <> "".
Proof.
  split.
  - apply (proj2 (toChessBoardSquare_empty_iff _ _)). reflexivity.
  - intros H. apply toChessBoardSquare_empty_iff in H. discriminate.
Defined.

(** A column off the board has no letter: [letters[x]] is [undefined]. *)
Lemma toChessBoardSquare_off_board_file (c : Coordinates) :
  (x c < 0 \/ 7 < x c)%Z ->
  toChessBoardSquare c SIDE_WHITE = "undefined" +:+ js_number_to_string (8 - y c).
Proof.
  intros Hx. unfold toChessBoardSquare, js_array_get. simpl.
  destruct (Z.leb_spec 0 (x c)); [|reflexivity].
  rewrite lookup_ge_None_2; [reflexivity|]. simpl. lia.
Qed.

(** ** Reading labels back *)

Lemma sides_cases (p : string) : is_side p = true -> p = SIDE_WHITE \/ p = SIDE_BLACK.
Proof.
  unfold is_side. rewrite orb_true_iff, !String.eqb_eq. done.
Qed.

Lemma square_name_chars (f r : ascii) :
  (65 <= N_of_ascii f)%N -> (48 <= N_of_ascii r)%N ->
  square_name (Z.of_N (N_of_ascii f) - 65) (Z.of_N (N_of_ascii r) - 48) = String f (String r "").
Proof.
  intros Hf Hr. unfold square_name.
  replace (65 + Z.to_N (Z.of_N (N_of_ascii f) - 65))%N with (N_of_ascii f) by lia.
  replace (48 + Z.to_N (Z.of_N (N_of_ascii r) - 48))%N with (N_of_ascii r) by lia.
  by rewrite !ascii_N_embedding.
Qed.

Lemma decode_all_cells :
  forallb (fun c => bool_decide (fromChessBoardSquare (toChessBoardSquare c SIDE_WHITE) SIDE_WHITE = Some c) &&
                    bool_decide (fromChessBoardSquare (toChessBoardSquare c SIDE_BLACK) SIDE_BLACK = Some c))
          all_cells = true.
Proof. vm_compute. reflexivity. Qed.

Lemma decode_label (c : Coordinates) (p : string) :
  on_board c = true -> is_side p = true ->
  fromChessBoardSquare (toChessBoardSquare c p) p = Some c.
Proof.
  intros Hc Hp.
  pose proof (board_forall _ decode_all_cells c Hc) as H.
  apply andb_true_iff in H as [H1 H2]. apply bool_decide_eq_true in H1, H2.
  by destruct (sides_cases p Hp) as [-> | ->].
Qed.

(** C24: reading the label of a cell of the board from the side it was
    written for gives back the cell. *)
Theorem fromChessBoardSquare_toChessBoardSquare (c : Coordinates) (p : string) :
  on_board c = true -> is_side p = true ->
  fromChessBoardSquare (toChessBoardSquare c p) p = Some c.
Proof. exact (decode_label c p). Qed.

Lemma fromChessBoardSquare_toChessBoardSquare_witness :
  on_board (mkCoordinates 2 5) = true /\ is_side SIDE_BLACK = true /\
  fromChessBoardSquare (toChessBoardSquare (mkCoordinates 2 5) SIDE_BLACK) SIDE_BLACK
    = Some (mkCoordinates 2 5).
Proof.
  split_and!; [reflexivity | reflexivity |].
  apply fromChessBoardSquare_toChessBoardSquare; reflexivity.
Defined.

(** C25: a name is accepted only if it is the label of a cell of the
    board: decoding is the inverse of labelling, in both directions. *)
Theorem fromChessBoardSquare_sound (s p : string) (c : Coordinates) :
  fromChessBoardSquare s p = Some c -> on_board c = true /\ toChessBoardSquare c p = s.
Proof.
  unfold fromChessBoardSquare.
  destruct (list_ascii_of_string s) as [|f [|r [|]]] eqn:Hs; try discriminate.
  assert (s = String f (String r "")) as ->.
  { rewrite <- (string_of_list_ascii_of_string s), Hs. reflexivity. }
  destruct ((0 <=? _)%Z && _ && _ && _) eqn:Hb; [|discriminate].
  rewrite !andb_true_iff, !Z.leb_le in Hb.
  pose proof (square_name_chars f r ltac:(lia) ltac:(lia)) as Hname.
  set (file := (Z.of_N (N_of_ascii f) - 65)%Z) in *.
  set (rank := (Z.of_N (N_of_ascii r) - 48)%Z) in *.
  destruct (String.eqb_spec p SIDE_WHITE) as [->|Hw];
    [|destruct (String.eqb_spec p SIDE_BLACK) as [->|Hb']; [|discriminate]];
    intros [= <-].
  - assert (Hon : on_board (mkCoordinates file (8 - rank)) = true) by (apply on_board_spec; simpl; lia).
    split; [done|]. rewrite (proj1 (labels_on_board _ Hon)). simpl.
    by replace (8 - (8 - rank))%Z with rank by lia.
  - assert (Hon : on_board (mkCoordinates (7 - file) (rank - 1)) = true) by (apply on_board_spec; simpl; lia).
    split; [done|]. rewrite (proj2 (labels_on_board _ Hon)). simpl.
    by replace (7 - (7 - file))%Z with file by lia; replace (rank - 1 + 1)%Z with rank by lia.
Qed.

Lemma fromChessBoardSquare_sound_witness :
  fromChessBoardSquare "E4" SIDE_WHITE = Some (mkCoordinates 4 4) /\
  toChessBoardSquare (mkCoordinates 4 4) SIDE_WHITE = "E4".
Proof.
  split; [reflexivity|].
  exact (proj2 (fromChessBoardSquare_sound "E4" SIDE_WHITE (mkCoordinates 4 4) eq_refl)).
Defined.

(** C26: for a fixed side, distinct cells of the board have distinct
    labels, so the label the player reads names exactly one cell. *)
Theorem toChessBoardSquare_inj (c1 c2 : Coordinates) (p : string) :
  on_board c1 = true -> on_board c2 = true -> is_side p = true ->
  toChessBoardSquare c1 p = toChessBoardSquare c2 p -> c1 = c2.
Proof.
  intros H1 H2 Hp Heq.
  pose proof (decode_label c1 p H1 Hp) as E1.
  rewrite Heq, decode_label in E1 by done.
  by injection E1.
Qed.

Lemma toChessBoardSquare_inj_witness :
  mkCoordinates 1 6 = mkCoordinates 1 6.
Proof. apply (toChessBoardSquare_inj _ _ SIDE_WHITE); reflexivity. Defined.

End Coordinates.
