(* ===== verification/Random.v ===== *)
(** * Random: [getRandomInt], [randomPiecesColor], [randomCoordinates]

    Models lines 24-36 of [src/src/App.js].  [Math.random()] is not code of
    the repository: it is modelled as an oracle, a stream [draws] of
    integers read in order, each taken modulo [2^52] and divided by [2^52]
    (V8 returns [k / 2^52] for a 52-bit [k]).  Any stream is a possible
    source, so the theorems hold for every sequence of draws.  The
    functions that call [Math.random] are written in a small state monad
    [RandM] over the oracle, so that the order of the draws is that of the
    code: [randomCoordinates] draws [x] before [y] (left-to-right argument
    evaluation of [new Coordinates(getRandomInt(0, 7), getRandomInt(0, 7))]).

    [getRandomInt] computes [Math.floor(Math.random() * (max - min + 1)) +
    min] with exact rational arithmetic.  For [max - min + 1 = 8], the only
    width the program uses, the floating-point product is exact, so the
    model is exact there.  [Math.ceil(min)] and [Math.floor(max)] are the
    identity on the integer arguments the program passes.

    Results: the bounds of [getRandomInt], targets always on the board,
    sides always valid, and exact uniformity: every cell of the board is
    produced by the same number ([2^49 * 2^49]) of pairs of draws, and each
    side by [2^51] draws. *)

From Stdlib Require Import ZArith Lia String List.
From stdpp Require Import base decidable strings list.
From S2P Require Import Prelude JsRuntime Squares.

Import Coordinates.

Module Random.

(** ** The [Math.random] oracle and the random-state monad *)

Definition random_den : Z := (2 ^ 52)%Z.

Record Rng := mkRng { draws : nat -> Z; drawn : nat }.

Definition RandM (A : Type) : Type := Rng -> A * Rng.

Definition rret {A} (a : A) : RandM A := fun r => (a, r).

Definition rbind {A B} (m : RandM A) (f : A -> RandM B) : RandM B :=
  fun r => let '(a, r') := m r in f a r'.

Notation "x '<-r' m ';;' k" := (rbind m (fun x => k))
  (at level 100, m at next level, right associativity) : cbm_scope.

(** The [i]-th draw from now, as the integer [k] of [k / 2^52]. *)
Definition peek (r : Rng) (i : nat) : Z := (draws r (drawn r + i) mod random_den)%Z.

Definition math_random : RandM Z :=
  fun r => (peek r 0, mkRng (draws r) (Datatypes.S (drawn r))).

(** ** The program's random helpers *)

(** [Math.floor(r * (max - min + 1)) + min] for [r = k / 2^52]. *)
Definition scale_random (min max k : Z) : Z :=
  (math_floor_div (k * (max - min + 1)) random_den + min)%Z.

Definition getRandomInt (min max : Z) : RandM Z :=
  k <-r math_random ;; rret (scale_random min max k).

(** [Math.random() < 0.5 ? SIDE.WHITE : SIDE.BLACK] *)
Definition side_of_draw (k : Z) : string :=
  if (k <? 2 ^ 51)%Z then SIDE_WHITE else SIDE_BLACK.

Definition randomPiecesColor : RandM string :=
  k <-r math_random ;; rret (side_of_draw k).

Definition randomCoordinates : RandM Coordinates :=
  cx <-r getRandomInt 0 7 ;; cy <-r getRandomInt 0 7 ;; rret (mkCoordinates cx cy).

(** ** Lemmas on the oracle *)

Lemma peek_bounds (r : Rng) (i : nat) : (0 <= peek r i < random_den)%Z.
Proof. unfold peek, random_den. apply Z.mod_pos_bound. lia. Qed.

Lemma randomCoordinates_draws (r : Rng) :
  randomCoordinates r =
    (mkCoordinates (scale_random 0 7 (peek r 0)) (scale_random 0 7 (peek r 1)),
     mkRng (draws r) (drawn r + 2)).
Proof.
  unfold randomCoordinates, getRandomInt, rbind, rret, math_random, peek. simpl.
  repeat f_equal; lia.
Qed.

Lemma randomPiecesColor_draws (r : Rng) :
  randomPiecesColor r = (side_of_draw (peek r 0), mkRng (draws r) (Datatypes.S (drawn r))).
Proof. reflexivity. Qed.

(** ** Bounds *)

Lemma scale_random_bounds (min max k : Z) :
  (min <= max)%Z -> (0 <= k < random_den)%Z -> (min <= scale_random min max k <= max)%Z.
Proof.
  intros H Hk. unfold scale_random, math_floor_div. unfold random_den in *.
  set (n := (max - min + 1)%Z).
  assert (0 <= k * n < 2 ^ 52 * n)%Z by (subst n; nia).
  assert (0 <= k * n / 2 ^ 52)%Z by (apply Z.div_pos; lia).
  assert (k * n / 2 ^ 52 < n)%Z by (apply Z.div_lt_upper_bound; lia).
  subst n. lia.
Qed.

(** C31: [getRandomInt(min, max)] returns an integer of [[min, max]]
    whatever [Math.random] returns. *)
Theorem getRandomInt_bounds (min max : Z) (r : Rng) :
  (min <= max)%Z -> (min <= fst (getRandomInt min max r) <= max)%Z.
Proof. intros H. apply scale_random_bounds; [done | apply peek_bounds]. Qed.

Lemma getRandomInt_bounds_witness :
  let r := mkRng (fun _ => (2 ^ 52 - 1)%Z) 0 in
  fst (getRandomInt 0 7 r) = 7%Z /\ (0 <= fst (getRandomInt 0 7 r) <= 7)%Z.
Proof. split; [reflexivity|]. apply getRandomInt_bounds. lia. Defined.

(** ** Uniformity *)

Lemma scale_random_board (k : Z) : (0 <= k < random_den)%Z ->
  scale_random 0 7 k = (k / 2 ^ 49)%Z.
Proof.
  intros Hk. unfold scale_random, math_floor_div, random_den.
  replace (2 ^ 52)%Z with (2 ^ 49 * 8)%Z by reflexivity.
  replace (k * (7 - 0 + 1))%Z with (k * 8)%Z by lia.
  rewrite Z.div_mul_cancel_r by lia. lia.
Qed.

(** A draw gives the column (or row) [v] exactly when it lies in the
    [v]-th of eight intervals of [2^49] draws. *)
Lemma scale_random_board_iff (k v : Z) : (0 <= k < random_den)%Z ->
  scale_random 0 7 k = v <-> (v * 2 ^ 49 <= k < (v + 1) * 2 ^ 49)%Z.
Proof.
  intros Hk. rewrite scale_random_board by done.
  change (2 ^ 49)%Z with 562949953421312%Z. split.
  - intros <-. Z.div_mod_to_equations. lia.
  - intros Hv. symmetry. apply Z.div_unique_pos with (k - v * 562949953421312)%Z; lia.
Qed.

(** C29: [randomCoordinates] yields the cell [c] exactly when the first
    draw lies in the [x c]-th and the second in the [y c]-th of eight
    intervals of [2^49] draws: every cell of the board comes from a box of
    [2^49 * 2^49] pairs of draws (the 64 cells are equally likely), and no
    pair of draws yields a cell off the board. *)
Theorem randomCoordinates_uniform (r : Rng) (c : Coordinates) :
  fst (randomCoordinates r) = c <->
  (x c * 2 ^ 49 <= peek r 0 < (x c + 1) * 2 ^ 49 /\
   y c * 2 ^ 49 <= peek r 1 < (y c + 1) * 2 ^ 49)%Z.
Proof.
  rewrite randomCoordinates_draws. simpl.
  rewrite <- (scale_random_board_iff (peek r 0)), <- (scale_random_board_iff (peek r 1))
    by apply peek_bounds.
  destruct c as [cx cy]; simpl. split; [intros [= -> ->] | intros [-> ->]]; done.
Qed.

Lemma randomCoordinates_uniform_witness :
  let r := mkRng (fun i => if (i =? 0)%nat then (3 * 2 ^ 49)%Z else (7 * 2 ^ 49 + 5)%Z) 0 in
  fst (randomCoordinates r) = mkCoordinates 3 7.
Proof. apply randomCoordinates_uniform. vm_compute. split; split; congruence. Defined.

Lemma random_draws_valid (r : Rng) :
  on_board (fst (randomCoordinates r)) = true /\ is_side (fst (randomPiecesColor r)) = true.
Proof.
  split.
  - apply on_board_spec. rewrite randomCoordinates_draws. simpl.
    split; apply scale_random_bounds; (lia || apply peek_bounds).
  - simpl. unfold side_of_draw. by destruct (_ <? _)%Z.
Qed.

(** C30: the target is always a cell of the board and the side always
    one of the two sides. *)
Theorem random_target_valid (r : Rng) :
  on_board (fst (randomCoordinates r)) = true /\ is_side (fst (randomPiecesColor r)) = true.
Proof. exact (random_draws_valid r). Qed.

(** Each side comes from exactly half of the draws. *)
Lemma randomPiecesColor_white_iff (r : Rng) :
  fst (randomPiecesColor r) = SIDE_WHITE <-> (peek r 0 < 2 ^ 51)%Z.
Proof.
  simpl. unfold side_of_draw. destruct (Z.ltb_spec (peek r 0) (2 ^ 51)); split; try done; lia.
Qed.

End Random.
