(* ===== verification/Clock.v ===== *)
(** * Clock: the countdown component

    Models lines 22 ([GAME_SECONDS]) and 38-73 (class [Clock]) of
    [src/src/App.js].  The component's state is [seconds]; [interval]
    records whether the [setInterval] registered by [componentDidMount] is
    still live ([clearInterval] sets it to [false]).

    The interval callback calls [this.setState(prev => ({seconds:
    prev.seconds - 1}))] and then reads [this.state.seconds].  What that
    read sees depends on React: outside React event handlers, React 17 and
    earlier apply the update synchronously ([LegacySync]: the new value is
    seen), while React 18's automatic batching defers it ([Batched]: the old
    value is seen).  The source does not pin the React version, so every
    definition takes the mode as a parameter and the theorems say which
    results hold in which mode.

    [interval_tick] returns the new state and whether [props.onDone] was
    called; the caller (the [Game] model) performs [onDone]'s effect.

    Results: started with [s] seconds, [onDone] fires exactly once, on tick
    [fire_tick mode s] ([60] ticks in legacy mode and [61] in batched mode
    for [GAME_SECONDS]), never again; a clock unmounted before that never
    fires; the display [minutes:seconds] decomposes the remaining time. *)

From Stdlib Require Import ZArith Lia List.
From stdpp Require Import base decidable list.
From S2P Require Import Prelude.

(** [const GAME_SECONDS = 60;] *)
Definition GAME_SECONDS : Z := 60.

Module Clock.

Inductive SetStateMode := LegacySync | Batched.

Record Clock := mkClock { seconds : Z; interval : bool }.

(** [constructor(props) { this.state = { seconds: props.seconds } }] *)
Definition Clock_constructor (secs : Z) : Clock := mkClock secs false.

(** [componentDidMount]: [this.interval = setInterval(..., 1000)] *)
Definition componentDidMount (c : Clock) : Clock := mkClock (seconds c) true.

(** One firing of the interval callback; [true] when [onDone] is called. *)
Definition interval_tick (mode : SetStateMode) (c : Clock) : Clock * bool :=
  if interval c then
    let seconds' := (seconds c - 1)%Z in
    let observed := match mode with LegacySync => seconds' | Batched => seconds c end in
    if (observed <=? 0)%Z then (mkClock seconds' false, true)
    else (mkClock seconds' true, false)
  else (c, false).

(** [componentWillUnmount]: [clearInterval(this.interval)] *)
Definition componentWillUnmount (c : Clock) : Clock := mkClock (seconds c) false.

(** [render]: [{minutes}:{seconds % 60}] with [minutes = Math.floor(seconds / 60)]. *)
Definition render (c : Clock) : Z * Z :=
  (math_floor_div (seconds c) 60, js_rem (seconds c) 60).

(** ** Runs of the interval *)

(** [n] firings of the interval; the second component counts the calls
    of [onDone]. *)
Fixpoint run_ticks (mode : SetStateMode) (n : nat) (c : Clock) : Clock * nat :=
  match n with
  | O => (c, O)
  | Datatypes.S n' =>
      let '(c1, done1) := interval_tick mode c in
      let '(c2, dones) := run_ticks mode n' c1 in
      (c2, (Nat.b2n done1 + dones)%nat)
  end.

(** The tick on which a clock started with [s] seconds calls [onDone]. *)
Definition fire_tick (mode : SetStateMode) (s : Z) : Z :=
  match mode with
  | LegacySync => Z.max 1 s
  | Batched => Z.max 1 (s + 1)
  end.

Lemma fire_tick_pos (mode : SetStateMode) (s : Z) : (1 <= fire_tick mode s)%Z.
Proof. destruct mode; simpl; lia. Qed.

Lemma run_ticks_stopped (mode : SetStateMode) (n : nat) (s : Z) :
  run_ticks mode n (mkClock s false) = (mkClock s false, O).
Proof. induction n as [|n IH]; [done|]. simpl. by rewrite IH. Qed.

(** A running clock calls [onDone] on this tick exactly when its firing
    tick is the next one. *)
Lemma interval_tick_running (mode : SetStateMode) (s : Z) :
  interval_tick mode (mkClock s true) =
    if (fire_tick mode s <=? 1)%Z then (mkClock (s - 1) false, true)
    else (mkClock (s - 1) true, false).
Proof. unfold interval_tick, fire_tick. destruct mode; simpl; cbm_zcase; done || lia. Qed.

Lemma fire_tick_pred (mode : SetStateMode) (s : Z) :
  (1 < fire_tick mode s)%Z -> fire_tick mode (s - 1) = (fire_tick mode s - 1)%Z.
Proof. destruct mode; simpl; lia. Qed.

(** After [n] firings, a clock started with [s] seconds has counted down
    once per firing up to its firing tick and has stopped there. *)
Lemma run_ticks_running (mode : SetStateMode) (n : nat) (s : Z) :
  run_ticks mode n (mkClock s true) =
    (mkClock (s - Z.min (Z.of_nat n) (fire_tick mode s)) (Z.of_nat n <? fire_tick mode s)%Z,
     if (Z.of_nat n <? fire_tick mode s)%Z then O else 1%nat).
Proof.
  revert s. induction n as [|n IH]; intros s.
  - simpl. pose proof (fire_tick_pos mode s). cbm_zcase; [|lia]. do 2 f_equal. lia.
  - cbn [run_ticks]. rewrite interval_tick_running, Nat2Z.inj_succ. pose proof (fire_tick_pos mode s).
    destruct (Z.leb_spec (fire_tick mode s) 1).
    + rewrite run_ticks_stopped. simpl. cbm_zcase; try lia. do 2 f_equal; lia.
    + rewrite IH, fire_tick_pred by done. simpl. cbm_zcase; try lia; do 2 f_equal; lia.
Qed.

(** ** Properties *)

(** C20: a clock mounted with [s] seconds calls [onDone] exactly once, on
    firing number [fire_tick mode s] of its interval, and never again; until
    then it shows one second less per firing. *)
Theorem clock_fires_once (mode : SetStateMode) (s : Z) (n : nat) :
  snd (run_ticks mode n (componentDidMount (Clock_constructor s))) =
    (if (Z.of_nat n <? fire_tick mode s)%Z then O else 1%nat) /\
  seconds (fst (run_ticks mode n (componentDidMount (Clock_constructor s)))) =
    (s - Z.min (Z.of_nat n) (fire_tick mode s))%Z.
Proof. unfold componentDidMount, Clock_constructor. simpl. by rewrite run_ticks_running. Qed.

(** C21: the game's clock of [GAME_SECONDS] calls [onDone] on the 60th
    firing when React applies [setState] at once, but only on the 61st
    under React 18's batching, where the check reads the value from before
    the decrement. *)
Theorem game_clock_ticks (n : nat) :
  snd (run_ticks LegacySync n (componentDidMount (Clock_constructor GAME_SECONDS))) =
    (if (n <? 60)%nat then O else 1%nat) /\
  snd (run_ticks Batched n (componentDidMount (Clock_constructor GAME_SECONDS))) =
    (if (n <? 61)%nat then O else 1%nat).
Proof.
  unfold componentDidMount, Clock_constructor. cbn [seconds]. rewrite !run_ticks_running.
  unfold fire_tick, GAME_SECONDS. simpl. split.
  - destruct (Nat.ltb_spec n 60); cbm_zcase; lia.
  - destruct (Nat.ltb_spec n 61); cbm_zcase; lia.
Qed.

(** C22: a clock unmounted before its firing tick never calls [onDone]:
    [componentWillUnmount] clears the interval, so later firings do
    nothing. *)
Theorem clock_cancel_before_done (mode : SetStateMode) (s : Z) (k n : nat) :
  (Z.of_nat k < fire_tick mode s)%Z ->
  let '(c, d) := run_ticks mode k (componentDidMount (Clock_constructor s)) in
  (d + snd (run_ticks mode n (componentWillUnmount c)))%nat = O.
Proof.
  intros Hk. unfold componentDidMount, Clock_constructor. simpl.
  rewrite run_ticks_running. cbm_zcase; [|lia]. simpl. unfold componentWillUnmount. cbn [seconds].
  by rewrite run_ticks_stopped.
Qed.

Lemma clock_cancel_before_done_witness :
  let '(c, d) := run_ticks LegacySync 30 (componentDidMount (Clock_constructor GAME_SECONDS)) in
  (d + snd (run_ticks LegacySync 100 (componentWillUnmount c)))%nat = O.
Proof. apply clock_cancel_before_done. vm_compute. reflexivity. Defined.

(** The display [minutes:seconds] splits a non-negative remaining time
    into whole minutes and the seconds left over (not zero-padded). *)
Lemma render_decomposes (c : Clock) :
  (0 <= seconds c)%Z ->
  seconds c = (60 * fst (render c) + snd (render c))%Z /\ (0 <= snd (render c) < 60)%Z.
Proof. intros H. unfold render. simpl. cbm_lia. Qed.

End Clock.
