(* ===== verification/Board.v ===== *)
(** * Board: the [GameBoard] component and its canvas

    Models lines 9-14 ([SQUARE]) and 180-248 (class [GameBoard]) of
    [src/src/App.js].  Every [fillRect] of the component paints one whole
    cell ([fillRect(j * 80, i * 80, 80, 80)] on a 640x640 canvas), so the
    canvas is modelled at cell granularity: a [gmap] from [(column, row)] to
    the colour last painted there, together with the context's current
    [fillStyle].  A rectangle that falls outside the canvas changes nothing
    (the canvas clips it).  [console.log] is not modelled.

    - [componentDidMount]: the two nested [for] loops that draw the board
      and highlight the target;
    - [onClick]: converts the click offset to a cell with [Math.floor(d /
      80)], computes the cell's resting colour, paints it green (the
      target) or red (any other cell) and returns the [setTimeout] closure
      it schedules, as a [Timeout] record: whether it will call
      [props.onCorrect], the cell, and the colour it repaints;
    - [timeout_repaint]: the canvas part of that closure.

    Results: the drawing loop paints exactly the reference picture (a
    checkerboard with the target in green), the colour a click restores is
    the colour the loop drew, the verdict is "correct" exactly when the
    clicked cell is the target, and a click outside the board is judged
    wrong and leaves the board as it was. *)

From Stdlib Require Import ZArith Lia String List.
From stdpp Require Import base decidable strings gmap list.
From S2P Require Import Prelude JsRuntime Squares.

Import Coordinates.

(** [const SQUARE = Object.freeze({...})] *)
Definition SQUARE_WHITE : string := "#dcdcdc".
Definition SQUARE_BLACK : string := "#09292c".
Definition SQUARE_OK : string := "#00c946".
Definition SQUARE_WRONG : string := "red".

Module GameBoard.

(** ** The canvas *)

Record Ctx := mkCtx { fillStyle : string; cells : gmap (Z * Z) string }.

(** A fresh 640x640 canvas: nothing painted, default [fillStyle]. *)
Definition blank_canvas : Ctx := mkCtx "#000000" ∅.

Definition in_canvas (cx cy : Z) : bool :=
  (0 <=? cx)%Z && (cx <? 8)%Z && (0 <=? cy)%Z && (cy <? 8)%Z.

Definition setFillStyle (ctx : Ctx) (style : string) : Ctx := mkCtx style (cells ctx).

(** [ctx.fillRect(cx * 80, cy * 80, 80, 80)] *)
Definition fillCell (ctx : Ctx) (cx cy : Z) : Ctx :=
  if in_canvas cx cy then mkCtx (fillStyle ctx) (<[(cx, cy) := fillStyle ctx]> (cells ctx))
  else ctx.

(** ** [componentDidMount] *)

(** The body of the inner loop, at row [i] and column [j]; the state is
    the context and the local [color]. *)
Definition draw_cell (target : Coordinates) (i j : Z) (st : Ctx * string) : Ctx * string :=
  let '(ctx, color) := st in
  let ctx := fillCell ctx j i in
  let ctx := if (j =? x target)%Z && (i =? y target)%Z
             then fillCell (setFillStyle ctx SQUARE_OK) j i else ctx in
  let color := if String.eqb color SQUARE_WHITE then SQUARE_BLACK else SQUARE_WHITE in
  (setFillStyle ctx color, color).

(** The body of the outer loop, at row [i]. *)
Definition draw_row (target : Coordinates) (i : Z) (ctx : Ctx) : Ctx :=
  let color := if (js_rem i 2 =? 0)%Z then SQUARE_WHITE else SQUARE_BLACK in
  fst (for_loop 8 0 (draw_cell target i) (setFillStyle ctx color, color)).

Definition componentDidMount (target : Coordinates) (ctx : Ctx) : Ctx :=
  for_loop 8 0 (draw_row target) ctx.

(** ** [onClick] *)

Record Timeout := mkTimeout {
  to_correct : bool;   (** calls [this.props.onCorrect()] first *)
  to_x : Z;
  to_y : Z;
  to_color : string
}.

(** The resting colour computed by [onClick] (lines 207-213). *)
Definition onClick_color (cx cy : Z) : string :=
  let color := SQUARE_BLACK in
  let color := if (js_rem cy 2 =? 0)%Z && (js_rem cx 2 =? 0)%Z then SQUARE_WHITE else color in
  if negb (js_rem cy 2 =? 0)%Z && negb (js_rem cx 2 =? 0)%Z then SQUARE_WHITE else color.

(** The cell of a click at offset [(dx, dy)] = [(e.clientX - rect.left,
    e.clientY - rect.top)] from the canvas corner. *)
Definition click_cell (dx dy : Z) : Coordinates :=
  mkCoordinates (math_floor_div dx 80) (math_floor_div dy 80).

Definition onClick (target : Coordinates) (dx dy : Z) (ctx : Ctx) : Ctx * Timeout :=
  let cx := math_floor_div dx 80 in
  let cy := math_floor_div dy 80 in
  let color := onClick_color cx cy in
  if (x target =? cx)%Z && (y target =? cy)%Z then
    (fillCell (setFillStyle ctx SQUARE_OK) cx cy, mkTimeout true cx cy color)
  else
    (fillCell (setFillStyle ctx SQUARE_WRONG) cx cy, mkTimeout false cx cy color).

(** [ctx.fillStyle = color; ctx.fillRect(x * 80, y * 80, 80, 80);] in the
    [setTimeout] callback. *)
Definition timeout_repaint (t : Timeout) (ctx : Ctx) : Ctx :=
  fillCell (setFillStyle ctx (to_color t)) (to_x t) (to_y t).

(** ** Reference picture *)

Definition cell_color (cx cy : Z) : string :=
  if Z.even (cx + cy) then SQUARE_WHITE else SQUARE_BLACK.

Definition expected_cell (target : Coordinates) (cx cy : Z) : string :=
  if (cx =? x target)%Z && (cy =? y target)%Z then SQUARE_OK else cell_color cx cy.

(** ** The drawing loop *)

Lemma fillCell_lookup (ctx : Ctx) (cx cy a b : Z) :
  in_canvas cx cy = true ->
  cells (fillCell ctx cx cy) !! (a, b) =
    if decide ((cx, cy) = (a, b)) then Some (fillStyle ctx) else cells ctx !! (a, b).
Proof. intros H. unfold fillCell. rewrite H. simpl. apply lookup_insert. Qed.

Lemma fillCell_fillStyle (ctx : Ctx) (cx cy : Z) : fillStyle (fillCell ctx cx cy) = fillStyle ctx.
Proof. unfold fillCell. by destruct (in_canvas cx cy). Qed.

Lemma fillCell_outside (ctx : Ctx) (cx cy : Z) : in_canvas cx cy = false -> fillCell ctx cx cy = ctx.
Proof. unfold fillCell. by intros ->. Qed.

Lemma in_canvas_spec (cx cy : Z) :
  in_canvas cx cy = true <-> (0 <= cx < 8)%Z /\ (0 <= cy < 8)%Z.
Proof. unfold in_canvas. rewrite !andb_true_iff, Z.leb_le, Z.ltb_lt, Z.leb_le, Z.ltb_lt. tauto. Qed.

(** The picture after the first rows (or, inside a row, the first
    columns of the current row): the cells already drawn hold their
    expected colour and no other cell is painted. *)
Definition drawn_upto (target : Coordinates) (i m : Z) (ctx : Ctx) : Prop :=
  forall a b, cells ctx !! (a, b) =
    if bool_decide ((0 <= a < 8)%Z /\ (0 <= b < 8)%Z /\ ((b < i)%Z \/ (b = i /\ a < m)%Z))
    then Some (expected_cell target a b) else None.

Lemma cell_color_succ (m i : Z) :
  cell_color (m + 1) i = if String.eqb (cell_color m i) SQUARE_WHITE then SQUARE_BLACK else SQUARE_WHITE.
Proof.
  unfold cell_color. replace (m + 1 + i)%Z with (Z.succ (m + i)) by lia.
  rewrite Z.even_succ, <- Z.negb_even. by destruct (Z.even (m + i)).
Qed.

Lemma draw_cell_step (target : Coordinates) (i m : Z) (ctx : Ctx) (color : string) :
  (0 <= i < 8)%Z -> (0 <= m < 8)%Z ->
  color = cell_color m i -> fillStyle ctx = color -> drawn_upto target i m ctx ->
  let '(ctx', color') := draw_cell target i m (ctx, color) in
  color' = cell_color (m + 1) i /\ fillStyle ctx' = color' /\ drawn_upto target i (m + 1) ctx'.
Proof.
  intros Hi Hm -> Hs Hd. assert (Hin : in_canvas m i = true) by (apply in_canvas_spec; lia).
  unfold draw_cell. rewrite <- cell_color_succ. split_and!; [done..|].
  intros a b. cbn [cells setFillStyle].
  assert (Hcell : forall c, cells (fillCell c m i) !! (a, b) =
    if decide ((m, i) = (a, b)) then Some (fillStyle c) else cells c !! (a, b))
    by (intros; by apply fillCell_lookup).
  destruct (decide ((m, i) = (a, b))) as [Heq|Hne].
  - injection Heq as <- <-. rewrite bool_decide_eq_true_2 by lia.
    unfold expected_cell. destruct ((m =? x target)%Z && (i =? y target)%Z);
      rewrite Hcell; cbn [fillStyle setFillStyle];
      rewrite ?fillCell_fillStyle; congruence.
  - assert (Hold : cells (if (m =? x target)%Z && (i =? y target)%Z
                          then fillCell (setFillStyle (fillCell ctx m i) SQUARE_OK) m i
                          else fillCell ctx m i) !! (a, b) = cells ctx !! (a, b)).
    { destruct (_ && _); rewrite ?Hcell, ?decide_False by done; cbn [cells setFillStyle];
        rewrite ?Hcell, ?decide_False by done; done. }
    rewrite Hold, Hd. erewrite bool_decide_ext; [reflexivity|].
    assert (a <> m \/ b <> i) by (destruct (decide (a = m)) as [->|]; [right; intros ->; by apply Hne | by left]).
    lia.
Qed.

Lemma drawn_upto_iff (target : Coordinates) (i m i' m' : Z) (ctx : Ctx) :
  (forall a b, (0 <= a < 8)%Z -> (0 <= b < 8)%Z ->
     ((b < i)%Z \/ (b = i /\ a < m)%Z) <-> ((b < i')%Z \/ (b = i' /\ a < m')%Z)) ->
  drawn_upto target i m ctx -> drawn_upto target i' m' ctx.
Proof.
  intros Hiff Hd a b. rewrite Hd. erewrite bool_decide_ext; [reflexivity|].
  split; intros (Ha & Hb & H); (split; [done|split; [done|]]); by apply Hiff.
Qed.

Lemma draw_row_step (target : Coordinates) (i : Z) (ctx : Ctx) :
  (0 <= i < 8)%Z -> drawn_upto target i 0 ctx -> drawn_upto target (i + 1) 0 (draw_row target i ctx).
Proof.
  intros Hi Hd. unfold draw_row.
  set (color0 := if (js_rem i 2 =? 0)%Z then SQUARE_WHITE else SQUARE_BLACK).
  assert (Hc0 : color0 = cell_color 0 i).
  { subst color0. unfold cell_color. rewrite Z.add_0_l.
    destruct (Z.eqb_spec (js_rem i 2) 0) as [E|E]; destruct (Z.even i) eqn:Ev; try done.
    - apply js_rem_2_zero in E. congruence.
    - apply js_rem_2_zero in Ev. congruence. }
  pose proof (for_loop_inv
    (fun k st => snd st = cell_color (Z.of_nat k) i /\ fillStyle (fst st) = snd st /\
                 drawn_upto target i (Z.of_nat k) (fst st))
    8 0 (draw_cell target i) (setFillStyle ctx color0, color0)) as Hloop.
  destruct Hloop as (_ & _ & Hend).
  - split_and!; [done | done | exact Hd].
  - intros k [c col] Hk (Hcol & Hs & Hdk). cbn [fst snd] in *.
    pose proof (draw_cell_step target i (Z.of_nat k) c col ltac:(lia) ltac:(lia) Hcol Hs Hdk) as Hstep.
    replace (0 + Z.of_nat k)%Z with (Z.of_nat k) by lia.
    destruct (draw_cell target i (Z.of_nat k) (c, col)) as [c' col'].
    by rewrite Nat2Z.inj_succ, <- Z.add_1_r.
  - revert Hend. apply drawn_upto_iff. intros a b Ha Hb. simpl. lia.
Qed.

Lemma drawn_picture (target : Coordinates) (a b : Z) :
  cells (componentDidMount target blank_canvas) !! (a, b) =
    if in_canvas a b then Some (expected_cell target a b) else None.
Proof.
  pose proof (for_loop_inv (fun k ctx => drawn_upto target (Z.of_nat k) 0 ctx)
                8 0 (draw_row target) blank_canvas) as Hloop.
  unfold componentDidMount. rewrite Hloop.
  - destruct (in_canvas a b) eqn:Hin.
    + apply in_canvas_spec in Hin. rewrite bool_decide_eq_true_2 by (simpl; lia). done.
    + rewrite bool_decide_eq_false_2; [done|]. intros (Ha & Hb & _).
      assert (in_canvas a b = true) by (apply in_canvas_spec; lia). congruence.
  - intros a' b'. simpl. rewrite lookup_empty, bool_decide_eq_false_2; [done|lia].
  - intros k ctx Hk Hd. rewrite Nat2Z.inj_succ, <- Z.add_1_r.
    apply draw_row_step; [lia|]. revert Hd. apply drawn_upto_iff. lia.
Qed.

(** C17: the drawing loop of [componentDidMount] paints every cell of a
    blank canvas with the checkerboard colour [cell_color] (white where
    column plus row is even), except the target cell, which it paints
    [SQUARE.OK]; nothing outside the board is painted. *)
Theorem componentDidMount_picture (target : Coordinates) (a b : Z) :
  cells (componentDidMount target blank_canvas) !! (a, b) =
    if in_canvas a b then Some (expected_cell target a b) else None.
Proof. exact (drawn_picture target a b). Qed.

Lemma componentDidMount_picture_witness :
  cells (componentDidMount (mkCoordinates 2 3) blank_canvas) !! (2%Z, 3%Z) = Some SQUARE_OK /\
  cells (componentDidMount (mkCoordinates 2 3) blank_canvas) !! (1%Z, 0%Z) = Some SQUARE_BLACK.
Proof. split; rewrite componentDidMount_picture; reflexivity. Defined.

(** ** Judging a click *)

Lemma onClick_color_cell_color (cx cy : Z) : onClick_color cx cy = cell_color cx cy.
Proof.
  unfold onClick_color, cell_color. rewrite Z.even_add, !js_rem_2_eqb.
  by destruct (Z.even cx), (Z.even cy).
Qed.

Lemma onClick_correct_iff (target : Coordinates) (dx dy : Z) (ctx : Ctx) :
  to_correct (snd (onClick target dx dy ctx)) = true <-> click_cell dx dy = target.
Proof.
  unfold onClick, click_cell. destruct target as [tx ty]; simpl.
  destruct (Z.eqb_spec tx (math_floor_div dx 80)), (Z.eqb_spec ty (math_floor_div dy 80));
    simpl; split; intros H; try congruence; injection H; lia.
Qed.

(** C15: a click is judged correct exactly when the cell under the
    pointer, [(Math.floor(dx / 80), Math.floor(dy / 80))], is the target;
    the side the label was written for plays no part. *)
Theorem onClick_verdict (target : Coordinates) (dx dy : Z) (ctx : Ctx) :
  to_correct (snd (onClick target dx dy ctx)) = true <-> click_cell dx dy = target.
Proof. exact (onClick_correct_iff target dx dy ctx). Qed.

Lemma onClick_verdict_witness :
  to_correct (snd (onClick (mkCoordinates 2 3) 170 250 blank_canvas)) = true.
Proof. apply onClick_verdict. reflexivity. Defined.

(** A click inside the 640x640 canvas falls on a cell of the board. *)
Lemma click_cell_in_canvas (dx dy : Z) :
  (0 <= dx < 640)%Z -> (0 <= dy < 640)%Z ->
  in_canvas (x (click_cell dx dy)) (y (click_cell dx dy)) = true.
Proof. intros. apply in_canvas_spec. simpl. cbm_lia. Qed.

Lemma click_repaint_cells (target : Coordinates) (dx dy : Z) (ctx : Ctx) :
  let '(ctx1, t) := onClick target dx dy ctx in
  cells (timeout_repaint t ctx1) =
    if in_canvas (x (click_cell dx dy)) (y (click_cell dx dy))
    then <[(x (click_cell dx dy), y (click_cell dx dy)) := cell_color (x (click_cell dx dy)) (y (click_cell dx dy))]> (cells ctx)
    else cells ctx.
Proof.
  unfold onClick, timeout_repaint, click_cell, fillCell, setFillStyle. cbn [x y].
  rewrite onClick_color_cell_color.
  destruct (_ && _), (in_canvas _ _); simpl; rewrite ?insert_insert_eq; done.
Qed.

(** C16: a click followed by its [setTimeout] callback leaves the canvas
    as before, except that the clicked cell (when it is on the board)
    now holds its checkerboard colour [cell_color]: the green or red
    flash is undone with the colour the drawing loop used. *)
Theorem click_then_repaint (target : Coordinates) (dx dy : Z) (ctx : Ctx) :
  let '(ctx1, t) := onClick target dx dy ctx in
  cells (timeout_repaint t ctx1) =
    if in_canvas (x (click_cell dx dy)) (y (click_cell dx dy))
    then <[(x (click_cell dx dy), y (click_cell dx dy)) := cell_color (x (click_cell dx dy)) (y (click_cell dx dy))]> (cells ctx)
    else cells ctx.
Proof. exact (click_repaint_cells target dx dy ctx). Qed.

(** C19: a wrong click on a cell of the freshly drawn board leaves, once its
    callback has run, the picture exactly as drawn: the red flash is
    repainted with the colour the drawing loop used for that cell. *)
Theorem wrong_click_restores_picture (target : Coordinates) (dx dy : Z) :
  click_cell dx dy <> target ->
  let '(ctx1, t) := onClick target dx dy (componentDidMount target blank_canvas) in
  cells (timeout_repaint t ctx1) = cells (componentDidMount target blank_canvas).
Proof.
  intros Hne. pose proof (click_repaint_cells target dx dy (componentDidMount target blank_canvas)) as H.
  destruct (onClick _ _ _ _) as [ctx1 t]. rewrite H.
  destruct (in_canvas _ _) eqn:Hin; [|done].
  apply insert_id. rewrite drawn_picture, Hin. unfold expected_cell.
  destruct target as [tx ty]; unfold click_cell in *; simpl in *.
  destruct (Z.eqb_spec (math_floor_div dx 80) tx), (Z.eqb_spec (math_floor_div dy 80) ty);
    simpl; [congruence|done..].
Qed.

Lemma wrong_click_restores_picture_witness :
  let '(ctx1, t) := onClick (mkCoordinates 2 3) 10 10 (componentDidMount (mkCoordinates 2 3) blank_canvas) in
  cells (timeout_repaint t ctx1) = cells (componentDidMount (mkCoordinates 2 3) blank_canvas).
Proof. apply wrong_click_restores_picture. vm_compute. discriminate. Defined.

(** C18: a click off the board (possible at the canvas's right or bottom
    edge, where [Math.floor(640 / 80) = 8]) is not rejected, but it is
    judged wrong for any target of the board, and neither its red flash
    nor its callback changes a cell of the canvas. *)
Theorem onClick_off_board (target : Coordinates) (dx dy : Z) (ctx : Ctx) :
  on_board target = true ->
  in_canvas (x (click_cell dx dy)) (y (click_cell dx dy)) = false ->
  to_correct (snd (onClick target dx dy ctx)) = false /\
  cells (fst (onClick target dx dy ctx)) = cells ctx /\
  cells (timeout_repaint (snd (onClick target dx dy ctx)) (fst (onClick target dx dy ctx))) = cells ctx.
Proof.
  intros Ht Hin. apply on_board_spec in Ht.
  assert (click_cell dx dy <> target) as Hne.
  { intros <-. assert (in_canvas (x (click_cell dx dy)) (y (click_cell dx dy)) = true)
      by (apply in_canvas_spec; lia). congruence. }
  split; [apply not_true_iff_false; by rewrite onClick_correct_iff|].
  pose proof (click_repaint_cells target dx dy ctx) as H. rewrite Hin in H.
  unfold click_cell in Hin; cbn [x y] in Hin.
  unfold onClick in *. destruct (_ && _); simpl in *; rewrite fillCell_outside in * by done; done.
Qed.

Lemma onClick_off_board_witness :
  to_correct (snd (onClick (mkCoordinates 7 3) 640 250 blank_canvas)) = false.
Proof. apply onClick_off_board; reflexivity. Defined.

End GameBoard.
