(* ===== verification/Session.v ===== *)
(** * Session: the [App] component

    Models lines 16-20 ([GameScreens]) and 300-371 (class [App]) of
    [src/src/App.js], with the navigation buttons of [MainMenuScreen]
    (lines 94-106), [GameScreen] (lines 166-173) and [GameOverScreen]
    (lines 250-282).

    [App]'s state is [score], [highScore], [isNewHighScore] and [screen].
    [highScore] is a JavaScript number read with [parseInt]; it is [NaN]
    when the stored text does not start with a number, modelled as [None]
    ([n > NaN] is [false], so a [NaN] high score is never replaced).  The
    operations are written against the [WebStorage] interface of
    [JsRuntime] (a [Section] with the storage laws as its context), so
    their theorems hold for any store with those laws, and [gmap_storage]
    is one instance.

    - [App_constructor]: [parseInt(localStorage.getItem("highScore") || 0)];
    - [changeScreen]: the functional [setState] of lines 311-320;
    - [incScore]: lines 322-335, with the [setItem] it performs;
    - [screen_buttons]: which navigation callbacks each screen renders.

    Results: the stored value always reads back as [highScore] (so a
    reload restores it), [incScore] replaces [highScore] by the maximum
    with the new score (and never changes a [NaN]), within a session
    [isNewHighScore] says whether the score beat the high score held at
    its start, and the screens offer exactly the five transitions of the
    spec. *)

From Stdlib Require Import ZArith Lia String List.
From stdpp Require Import base decidable strings gmap list.
From S2P Require Import Prelude JsRuntime.

(** [const GameScreens = Object.freeze({ MENU, BOARD, END })] *)
Inductive GameScreens := MENU | BOARD | END.

#[export] Instance GameScreens_eq_dec : EqDecision GameScreens.
Proof. solve_decision. Defined.

Module App.

Record AppState := mkApp {
  score : Z;
  highScore : option Z;   (** [None] is [NaN] *)
  isNewHighScore : bool;
  screen : GameScreens
}.

Definition HIGH_SCORE_KEY : string := "highScore".

(** [newScore > prevState.highScore] on a JavaScript number. *)
Definition js_gt (n : Z) (h : option Z) : bool :=
  match h with
  | Some h => (h <? n)%Z
  | None => false
  end.

Section WithStorage.
Context {St : Type} `{WebStorage St}.

(** [parseInt(localStorage.getItem("highScore") || 0)] *)
Definition loadHighScore (st : St) : option Z :=
  js_parseInt (js_or_zero (getItem st HIGH_SCORE_KEY)).

(** [constructor]: the initial state. *)
Definition App_constructor (st : St) : AppState :=
  mkApp 0 (loadHighScore st) false MENU.

(** [changeScreen = (screen) => this.setState(prevState => ...)] *)
Definition changeScreen (s : GameScreens) (a : AppState) : AppState :=
  mkApp (if decide (s = BOARD) then 0%Z else score a)
        (highScore a)
        (if decide (s <> END) then false else isNewHighScore a)
        s.

(** [incScore = () => this.setState(prevState => ...)]; the updater
    also writes the new high score to [localStorage]. *)
Definition incScore (a : AppState) (st : St) : AppState * St :=
  let newScore := (score a + 1)%Z in
  let isNew := js_gt newScore (highScore a) in
  let st' := if isNew then setItem st HIGH_SCORE_KEY (js_number_to_string newScore) else st in
  (mkApp newScore (if isNew then Some newScore else highScore a) isNew (screen a), st').

End WithStorage.

(** The navigation callbacks rendered on each screen, with the screen
    they pass to [changeScreen]: START on the menu, QUIT and the clock's
    [onDone] on the board, RETRY and EXIT on the game-over screen. *)
Inductive Intent := StartClick | QuitClick | ClockDone | RetryClick | ExitClick.

(** [MainMenuScreen]: [onClick={() => changeScreen(GameScreens.BOARD)}]. *)
Definition MainMenuScreen_buttons : list (Intent * GameScreens) := [(StartClick, BOARD)].

(** [GameScreen]: the clock's [onDone] and QUIT both [changeScreen(END)]. *)
Definition GameScreen_buttons : list (Intent * GameScreens) := [(ClockDone, END); (QuitClick, END)].

(** [GameOverScreen]: RETRY to [BOARD], EXIT to [MENU]. *)
Definition GameOverScreen_buttons : list (Intent * GameScreens) :=
  [(RetryClick, BOARD); (ExitClick, MENU)].

(** [render]'s [switch (this.state.screen)]; [default] is the menu. *)
Definition screen_buttons (s : GameScreens) : list (Intent * GameScreens) :=
  match s with
  | BOARD => GameScreen_buttons
  | END => GameOverScreen_buttons
  | MENU => MainMenuScreen_buttons
  end.

(** The spec's Screen Navigator (section 4.6): the five transitions. *)
Definition spec_transition (s : GameScreens) (i : Intent) : option GameScreens :=
  match s, i with
  | MENU, StartClick => Some BOARD
  | BOARD, ClockDone => Some END
  | BOARD, QuitClick => Some END
  | END, RetryClick => Some BOARD
  | END, ExitClick => Some MENU
  | _, _ => None
  end.

Lemma buttons_transitions (s : GameScreens) (i : Intent) (s' : GameScreens) :
  In (i, s') (screen_buttons s) <-> spec_transition s i = Some s'.
Proof.
  destruct s, i; simpl; split; intros H; try (destruct_or! H; simplify_eq); try congruence;
    injection H as <-; tauto.
Qed.

(** C14: the callbacks each screen renders are exactly the transitions
    the spec allows from it: any other intent has no button, so the
    screen cannot change by it. *)
Theorem screen_buttons_spec (s : GameScreens) (i : Intent) (s' : GameScreens) :
  In (i, s') (screen_buttons s) <-> spec_transition s i = Some s'.
Proof. exact (buttons_transitions s i s'). Qed.

Section Laws.
Context {St : Type} `{WebStorageLaws St}.

(** [localStorage] reads back as the high score held in memory. *)
Definition storage_agrees (st : St) (a : AppState) : Prop := loadHighScore st = highScore a.

Lemma js_or_zero_number (n : Z) : js_or_zero (Some (js_number_to_string n)) = js_number_to_string n.
Proof.
  simpl. destruct (String.eqb_spec (js_number_to_string n) "") as [E|_]; [|done].
  by destruct (js_number_to_string_nonempty n).
Qed.

Lemma load_saved (st : St) (n : Z) :
  loadHighScore (setItem st HIGH_SCORE_KEY (js_number_to_string n)) = Some n /\
  (getItem st HIGH_SCORE_KEY = None -> loadHighScore st = Some 0%Z).
Proof.
  unfold loadHighScore. split.
  - by rewrite getItem_setItem_eq, js_or_zero_number, parseInt_toString.
  - intros ->. reflexivity.
Qed.

(** C12: saving a high score [n] and loading it back gives [n]; loading
    with nothing saved gives [0]. *)
Theorem loadHighScore_saved (st : St) (n : Z) :
  loadHighScore (setItem st HIGH_SCORE_KEY (js_number_to_string n)) = Some n /\
  (getItem st HIGH_SCORE_KEY = None -> loadHighScore st = Some 0%Z).
Proof. exact (load_saved st n). Qed.

Lemma incScore_agrees (a : AppState) (st : St) :
  storage_agrees st a ->
  storage_agrees (snd (incScore a st)) (fst (incScore a st)).
Proof.
  unfold storage_agrees, incScore. simpl. intros Hag.
  destruct (js_gt _ _); [|done]. apply load_saved.
Qed.

(** C9: [incScore] keeps [localStorage] in agreement with [highScore]:
    it writes exactly when the high score changes, and what it writes
    reads back as the new high score.  Since the constructor reads
    [highScore] from the store and [changeScreen] touches neither, a
    reload of the page at any time restores the high score. *)
Theorem incScore_storage_agrees (a : AppState) (st : St) :
  storage_agrees st a ->
  storage_agrees (snd (incScore a st)) (fst (incScore a st)).
Proof. exact (incScore_agrees a st). Qed.

Lemma changeScreen_storage_agrees (s : GameScreens) (a : AppState) (st : St) :
  storage_agrees st a -> storage_agrees st (changeScreen s a).
Proof. done. Qed.

Lemma App_constructor_storage_agrees (st : St) : storage_agrees st (App_constructor st).
Proof. done. Qed.

Lemma incScore_max (a : AppState) (st : St) :
  score (fst (incScore a st)) = (score a + 1)%Z /\
  highScore (fst (incScore a st)) = option_map (fun h => Z.max h (score a + 1)) (highScore a).
Proof.
  unfold incScore. simpl. split; [done|].
  destruct (highScore a) as [h|]; simpl; [|done]. cbm_zcase; f_equal; lia.
Qed.

(** C10: [incScore] adds one to the score and replaces a numeric high
    score by its maximum with the new score; a [NaN] high score (a
    stored value [parseInt] cannot read) stays [NaN]. *)
Theorem incScore_highScore (a : AppState) (st : St) :
  score (fst (incScore a st)) = (score a + 1)%Z /\
  highScore (fst (incScore a st)) = option_map (fun h => Z.max h (score a + 1)) (highScore a).
Proof. exact (incScore_max a st). Qed.

(** [k] correct clicks in a row. *)
Fixpoint incScore_n (k : nat) (a : AppState) (st : St) : AppState * St :=
  match k with
  | O => (a, st)
  | Datatypes.S k' => let '(a', st') := incScore_n k' a st in incScore a' st'
  end.

(** C11: in a session entered through [changeScreen(BOARD)] with high
    score [h0], after [k] correct clicks the score is [k], the high
    score is the larger of [h0] and [k] (once [k > 0]), and
    [isNewHighScore] holds exactly when [k > 0] and [k] beat [h0]. *)
Theorem session_scores (k : nat) (a : AppState) (st : St) (h0 : Z) :
  highScore a = Some h0 ->
  let a' := fst (incScore_n k (changeScreen BOARD a) st) in
  score a' = Z.of_nat k /\
  highScore a' = Some (if (k =? 0)%nat then h0 else Z.max h0 (Z.of_nat k)) /\
  isNewHighScore a' = (0 <? Z.of_nat k)%Z && (h0 <? Z.of_nat k)%Z.
Proof.
  intros Hh. simpl. induction k as [|k IH]; [simpl; by rewrite Hh|].
  cbn [incScore_n]. destruct (incScore_n k _ st) as [ak stk]. simpl in IH.
  destruct IH as (Hs & Hhs & _). unfold incScore. simpl. rewrite Hs, Hhs. simpl.
  rewrite Nat2Z.inj_succ. destruct (Nat.eqb_spec k 0) as [->|Hk]; simpl; cbm_zcase; split_and!;
    try (f_equal; lia); try lia; done.
Qed.

(** C13: a high score that [parseInt] read as [NaN] is never replaced
    and never written back: no later score counts as a new high score. *)
Theorem incScore_NaN_sticks (k : nat) (a : AppState) (st : St) :
  highScore a = None ->
  highScore (fst (incScore_n k a st)) = None /\ snd (incScore_n k a st) = st /\
  (k <> 0 -> isNewHighScore (fst (incScore_n k a st)) = false).
Proof.
  intros Hn. induction k as [|k IH]; [done|]. cbn [incScore_n].
  destruct (incScore_n k a st) as [ak stk]. simpl in IH. destruct IH as (Ha & -> & _).
  unfold incScore. rewrite Ha. done.
Qed.

End Laws.

(** The spec's scenario: from a high score of 0, three correct clicks
    give score 3, high score 3 and a new high score; a later session
    that scores 2 keeps the high score 3 and is not a new high score. *)
Lemma session_scores_witness :
  let st0 := (∅ : gmap string string) in
  let a0 := App_constructor st0 in
  let '(a1, st1) := incScore_n 3 (changeScreen BOARD a0) st0 in
  let a2 := fst (incScore_n 2 (changeScreen BOARD (changeScreen END a1)) st1) in
  (score a1, highScore a1, isNewHighScore a1) = (3%Z, Some 3%Z, true) /\
  (score a2, highScore a2, isNewHighScore a2) = (2%Z, Some 3%Z, false).
Proof.
  cbv zeta. set (st0 := (∅ : gmap string string)).
  assert (E0 : highScore (App_constructor st0) = Some 0%Z) by reflexivity.
  pose proof (session_scores 3 (App_constructor st0) st0 0 E0) as W1. cbv zeta in W1.
  destruct (incScore_n 3 (changeScreen BOARD (App_constructor st0)) st0) as [a1 st1] eqn:E1.
  destruct W1 as (S1 & H1 & N1). cbn [fst] in S1, H1, N1.
  assert (H1' : highScore (changeScreen END a1) = Some 3%Z) by (cbn; rewrite H1; reflexivity).
  pose proof (session_scores 2 (changeScreen END a1) st1 3 H1') as W2. cbv zeta in W2.
  destruct W2 as (S2 & H2 & N2). cbv zeta. rewrite S1, H1, N1, S2, H2, N2. split; reflexivity.
Defined.

Lemma incScore_NaN_sticks_witness :
  let st := (<["highScore" := "best"]> ∅ : gmap string string) in
  loadHighScore st = None /\
  isNewHighScore (fst (incScore_n 5 (changeScreen BOARD (App_constructor st)) st)) = false.
Proof.
  split; [reflexivity|].
  apply (incScore_NaN_sticks 5 (changeScreen BOARD (App_constructor (<["highScore" := "best"]> ∅ : gmap string string))) _); [reflexivity | done].
Defined.

Lemma incScore_storage_agrees_witness :
  let a := changeScreen BOARD (App_constructor (∅ : gmap string string)) in
  storage_agrees (snd (incScore a ∅)) (fst (incScore a ∅)).
Proof. apply incScore_storage_agrees. reflexivity. Defined.

Lemma loadHighScore_saved_witness :
  loadHighScore (∅ : gmap string string) = Some 0%Z.
Proof. apply (proj2 (loadHighScore_saved (∅ : gmap string string) 5)). reflexivity. Defined.

End App.
