(* ===== verification/Game.v ===== *)
(** * Game: the whole application as an event-driven state machine

    Composes the components of [src/src/App.js]: [App] (module [App] of
    [Session]), the [GameScreen] subtree (lines 108-178) with its [Clock]
    and [GameBoard], the browser's timer queue and [localStorage].

    A [World] holds the [App] state, the store, the mounted [GameScreen]
    subtree (present while the screen is [BOARD]: its [color], [target],
    clock and canvas, and an instance number), the queue of pending
    [setTimeout] callbacks (all of 200 ms, so they fire in the order they
    were scheduled, each tagged with the instance that scheduled it), the
    [Math.random] oracle, and the next instance number.

    [step] handles one event, processed to completion as React does:
    - [Press i]: a click on a navigation button of the current screen
      ([screen_buttons]); no button, no effect.  [changeScreen] then
      re-renders: leaving [BOARD] unmounts the subtree (the clock's
      [componentWillUnmount] clears its interval), entering [BOARD] mounts
      a fresh one ([GameScreen]'s constructor draws a side and a target,
      [GameBoard] draws, [Clock] starts its interval) — [mount];
    - [IntervalFires]: the clock's interval callback ([Clock.interval_tick]);
      when it calls [onDone], [changeScreen(END)];
    - [CanvasClick dx dy]: [GameBoard.onClick] on the mounted board; the
      callback it schedules joins the queue;
    - [TimeoutFires]: the oldest pending callback runs ([fire_timeout]): a
      correct-click callback calls [props.onCorrect], i.e. the owning
      [GameScreen]'s [correct]: [App.incScore] (the [App] is never
      unmounted, so this always applies) and [setState] with a freshly drawn
      side and target (the draws happen in any case; the state changes
      only if that instance is still mounted); then it repaints the cell on
      its own canvas (visible only if still mounted).

    The React [setState] mode is a section variable; only the clock
    depends on it. *)

From Stdlib Require Import ZArith Lia String List.
From stdpp Require Import base decidable strings gmap list.
From S2P Require Import Prelude JsRuntime Squares Random Clock Board Session.

Import Coordinates.

Module Game.

#[export] Instance Intent_eq_dec : EqDecision App.Intent.
Proof. solve_decision. Defined.

(** [GameScreen]'s state, with the instance it belongs to. *)
Record GameScreenState := mkGS { gs_id : nat; color : string; target : Coordinates }.

Record Mounted := mkMounted {
  gs : GameScreenState;
  clock : Clock.Clock;
  canvas : GameBoard.Ctx
}.

Record Pending := mkPending { pt_owner : nat; pt_timeout : GameBoard.Timeout }.

Record World := mkWorld {
  app : App.AppState;
  storage : gmap string string;
  mounted : option Mounted;
  pending : list Pending;
  rng : Random.Rng;
  next_id : nat
}.

Inductive Event :=
| Press (i : App.Intent)
| IntervalFires
| CanvasClick (dx dy : Z)
| TimeoutFires.

Definition set_app (w : World) (a : App.AppState) (st : gmap string string) : World :=
  mkWorld a st (mounted w) (pending w) (rng w) (next_id w).

Definition set_mounted (w : World) (m : option Mounted) : World :=
  mkWorld (app w) (storage w) m (pending w) (rng w) (next_id w).

Definition set_pending (w : World) (ps : list Pending) : World :=
  mkWorld (app w) (storage w) (mounted w) ps (rng w) (next_id w).

(** Mounting [GameScreen]: its constructor draws [color] then [target];
    [GameBoard] draws the board; [Clock] starts with [GAME_SECONDS]. *)
Definition mount (w : World) : World :=
  let '(col, r1) := Random.randomPiecesColor (rng w) in
  let '(tgt, r2) := Random.randomCoordinates r1 in
  let m := mkMounted (mkGS (next_id w) col tgt)
                     (Clock.componentDidMount (Clock.Clock_constructor GAME_SECONDS))
                     (GameBoard.componentDidMount tgt GameBoard.blank_canvas) in
  mkWorld (app w) (storage w) (Some m) (pending w) r2 (Datatypes.S (next_id w)).

(** [changeScreen(s)] and the re-render it causes. *)
Definition set_screen (s : GameScreens) (w : World) : World :=
  let old := App.screen (app w) in
  let w1 := set_app w (App.changeScreen s (app w)) (storage w) in
  if decide (old = BOARD) then
    (if decide (s = BOARD) then w1 else set_mounted w1 None)
  else
    (if decide (s = BOARD) then mount w1 else w1).

(** The screen a button of the current screen leads to; the clock's
    [onDone] is not a button. *)
Definition button_target (s : GameScreens) (i : App.Intent) : option GameScreens :=
  if decide (i = App.ClockDone) then None
  else snd <$> find (fun b => bool_decide (fst b = i)) (App.screen_buttons s).

(** A pending callback of the current [GameScreen] instance. *)
Definition owned_by_mounted (w : World) (owner : nat) : bool :=
  match mounted w with
  | Some m => bool_decide (gs_id (gs m) = owner)
  | None => false
  end.

(** [this.props.onCorrect()] from a callback of instance [owner]: the
    [correct] method of that [GameScreen] (lines 117-123). *)
Definition correct_callback (owner : nat) (w : World) : World :=
  let '(a', st') := App.incScore (app w) (storage w) in
  let '(col, r1) := Random.randomPiecesColor (rng w) in
  let '(tgt, r2) := Random.randomCoordinates r1 in
  let m' := match mounted w with
            | Some m => if owned_by_mounted w owner
                        then Some (mkMounted (mkGS (gs_id (gs m)) col tgt) (clock m) (canvas m))
                        else Some m
            | None => None
            end in
  mkWorld a' st' m' (pending w) r2 (next_id w).

(** [ctx.fillStyle = color; ctx.fillRect(...)] on the canvas of instance
    [owner], which is on screen only while that instance is mounted. *)
Definition repaint_callback (owner : nat) (t : GameBoard.Timeout) (w : World) : World :=
  match mounted w with
  | Some m => if owned_by_mounted w owner
              then set_mounted w (Some (mkMounted (gs m) (clock m) (GameBoard.timeout_repaint t (canvas m))))
              else w
  | None => w
  end.

(** The callback scheduled by [onClick] (lines 219-223 and 227-230). *)
Definition fire_timeout (p : Pending) (w : World) : World :=
  let t := pt_timeout p in
  let w1 := if GameBoard.to_correct t then correct_callback (pt_owner p) w else w in
  repaint_callback (pt_owner p) t w1.

Section Step.
Variable mode : Clock.SetStateMode.

Definition step (w : World) (e : Event) : World :=
  match e with
  | Press i =>
      match button_target (App.screen (app w)) i with
      | Some s' => set_screen s' w
      | None => w
      end
  | IntervalFires =>
      match mounted w with
      | Some m =>
          if Clock.interval (clock m) then
            let '(c', done) := Clock.interval_tick mode (clock m) in
            let w1 := set_mounted w (Some (mkMounted (gs m) c' (canvas m))) in
            if done then set_screen END w1 else w1
          else w
      | None => w
      end
  | CanvasClick dx dy =>
      match mounted w with
      | Some m =>
          let '(ctx', t) := GameBoard.onClick (target (gs m)) dx dy (canvas m) in
          set_pending (set_mounted w (Some (mkMounted (gs m) (clock m) ctx')))
                      (pending w ++ [mkPending (gs_id (gs m)) t])
      | None => w
      end
  | TimeoutFires =>
      match pending w with
      | p :: rest => fire_timeout p (set_pending w rest)
      | [] => w
      end
  end.

Definition run (w : World) (es : list Event) : World := fold_left step es w.

Definition step_rel (w w' : World) : Prop := exists e, w' = step w e.

(** The application as loaded: [App]'s constructor on the store. *)
Definition init_world (st : gmap string string) (r : Random.Rng) : World :=
  mkWorld (App.App_constructor st) st None [] r 0.

Definition reachable (w : World) : Prop :=
  exists st r, init_world st r ⇝*[ step_rel ] w.

End Step.

(** ** The invariant of reachable worlds *)

(** The subtree is mounted exactly on the board screen; its target is a
    cell of the board and its side a valid side; every instance number
    in use was allocated; and the store reads back as [highScore]. *)
Definition world_inv (w : World) : Prop :=
  (App.screen (app w) = BOARD <-> is_Some (mounted w)) /\
  (forall m, mounted w = Some m ->
     on_board (target (gs m)) = true /\ is_side (color (gs m)) = true /\
     (gs_id (gs m) < next_id w)%nat) /\
  App.storage_agrees (storage w) (app w) /\
  Forall (fun p => (pt_owner p < next_id w)%nat) (pending w).

Lemma random_pair_valid (r : Random.Rng) :
  let '(col, r1) := Random.randomPiecesColor r in
  let '(tgt, r2) := Random.randomCoordinates r1 in
  on_board tgt = true /\ is_side col = true.
Proof.
  destruct (Random.randomPiecesColor r) as [col r1] eqn:E1.
  destruct (Random.randomCoordinates r1) as [tgt r2] eqn:E2.
  pose proof (Random.random_draws_valid r1) as [H1 _].
  pose proof (Random.random_draws_valid r) as [_ H2].
  rewrite E2 in H1. rewrite E1 in H2. done.
Qed.

Lemma set_screen_inv (s : GameScreens) (w : World) :
  world_inv w -> world_inv (set_screen s w).
Proof.
  intros (Hscr & Hm & Hst & Hp). unfold set_screen.
  destruct (decide (App.screen (app w) = BOARD)) as [Hb|Hb];
    destruct (decide (s = BOARD)) as [->|Hs].
  - split_and!; simpl; [split; [intros _; by apply Hscr | done] | exact Hm | exact Hst | exact Hp].
  - split_and!; simpl; [split; [done|by intros []] | done | exact Hst | exact Hp].
  - assert (mounted w = None) as Hnone by (destruct (mounted w); [|done]; exfalso; apply Hb, Hscr; by eexists).
    unfold mount. cbn [rng set_app]. pose proof (random_pair_valid (rng w)) as Hr.
    destruct (Random.randomPiecesColor (rng w)) as [col r1].
    destruct (Random.randomCoordinates r1) as [tgt r2].
    split_and!; simpl.
    + split; [by eexists|done].
    + intros m [= <-]. simpl. split_and!; [tauto | tauto | lia].
    + exact Hst.
    + eapply Forall_impl; [exact Hp|]. simpl. lia.
  - assert (mounted w = None) as Hnone by (destruct (mounted w); [|done]; exfalso; apply Hb, Hscr; by eexists).
    split_and!; simpl; [rewrite Hnone; split; [done|by intros []] | by rewrite Hnone | exact Hst | exact Hp].
Qed.

Lemma repaint_callback_inv (owner : nat) (t : GameBoard.Timeout) (w : World) :
  world_inv w -> world_inv (repaint_callback owner t w).
Proof.
  intros Hinv. pose proof Hinv as (Hscr & Hm & Hst & Hp). unfold repaint_callback.
  destruct (mounted w) as [m|] eqn:E; [|done].
  destruct (owned_by_mounted w owner); [|done].
  split_and!; simpl; [split; intros; [by eexists | apply Hscr; by eexists]
                     | intros m' [= <-]; simpl; exact (Hm m eq_refl) | exact Hst | exact Hp].
Qed.

Lemma correct_callback_inv (owner : nat) (w : World) :
  world_inv w -> world_inv (correct_callback owner w).
Proof.
  intros (Hscr & Hm & Hst & Hp). unfold correct_callback.
  pose proof (App.incScore_agrees (app w) (storage w) Hst) as Hst'.
  destruct (App.incScore (app w) (storage w)) as [a' st'] eqn:Ei.
  assert (Hs' : App.screen a' = App.screen (app w)) by (unfold App.incScore in Ei; by injection Ei as <- _).
  pose proof (random_pair_valid (rng w)) as Hr.
  destruct (Random.randomPiecesColor (rng w)) as [col r1].
  destruct (Random.randomCoordinates r1) as [tgt r2].
  split_and!; simpl; [| | exact Hst' | exact Hp].
  - rewrite Hs', Hscr. destruct (mounted w); [destruct (owned_by_mounted _ _)|]; done.
  - destruct (mounted w) as [m|] eqn:E; [|done].
    destruct (owned_by_mounted w owner); intros m' [= <-]; simpl; [|by apply Hm].
    destruct (Hm m eq_refl) as (_ & _ & Hid). split_and!; [tauto | tauto | done].
Qed.

Lemma fire_timeout_inv (p : Pending) (w : World) :
  world_inv w -> world_inv (fire_timeout p w).
Proof.
  intros H. unfold fire_timeout. apply repaint_callback_inv.
  destruct (GameBoard.to_correct _); [by apply correct_callback_inv | done].
Qed.

Lemma set_mounted_inv (w : World) (m : Mounted) (c : Clock.Clock) (ctx : GameBoard.Ctx) :
  world_inv w -> mounted w = Some m -> world_inv (set_mounted w (Some (mkMounted (gs m) c ctx))).
Proof.
  intros (Hscr & Hm & Hst & Hp) E. rewrite E in Hscr, Hm.
  split_and!; simpl; [| intros m' [= <-]; simpl; exact (Hm m eq_refl) | exact Hst | exact Hp].
  rewrite Hscr. split; intros; by eexists.
Qed.

Section StepInv.
Variable mode : Clock.SetStateMode.

Lemma step_inv (w : World) (e : Event) : world_inv w -> world_inv (step mode w e).
Proof.
  intros Hinv. destruct e as [i| |dx dy|]; simpl.
  - destruct (button_target _ i); [by apply set_screen_inv | done].
  - destruct (mounted w) as [m|] eqn:E; [|done].
    destruct (Clock.interval (clock m)); [|done].
    destruct (Clock.interval_tick mode (clock m)) as [c' [|]];
      [apply set_screen_inv|]; by apply set_mounted_inv.
  - destruct (mounted w) as [m|] eqn:E; [|done].
    destruct (GameBoard.onClick _ _ _ _) as [ctx' t].
    pose proof (set_mounted_inv w m (clock m) ctx' Hinv E) as (Hscr & Hm & Hst & Hp).
    destruct Hinv as (_ & Hm0 & _ & _). destruct (Hm0 m E) as (_ & _ & Hid).
    split_and!; [exact Hscr | exact Hm | exact Hst |]. simpl.
    apply Forall_app. split; [exact Hp|]. by constructor.
  - destruct (pending w) as [|p rest] eqn:E; [done|]. apply fire_timeout_inv.
    destruct Hinv as (Hscr & Hm & Hst & Hp). rewrite E in Hp.
    split_and!; [exact Hscr | exact Hm | exact Hst | exact (Forall_inv_tail Hp)].
Qed.

Lemma init_world_inv (st : gmap string string) (r : Random.Rng) : world_inv (init_world st r).
Proof.
  split_and!; simpl; [split; [done | by intros []] | done | done | constructor].
Qed.

Lemma reachable_inv (w : World) : reachable mode w -> world_inv w.
Proof.
  intros (st & r & Hr).
  apply (star_invariant (step_rel mode) world_inv) with (init_world st r); [|exact Hr | apply init_world_inv].
  intros a b [e ->]. apply step_inv.
Qed.

Lemma star_run (w : World) (es : list Event) : w ⇝*[step_rel mode] run mode w es.
Proof.
  unfold run. induction es as [|e es IH] in w |- *; [constructor|]. simpl.
  eapply star_step; [by exists e | apply IH].
Qed.

End StepInv.

(** ** How each part of a step changes the [App] state *)

Lemma set_screen_app (s : GameScreens) (w : World) : app (set_screen s w) = App.changeScreen s (app w).
Proof.
  unfold set_screen. destruct (decide _), (decide _); try done;
    unfold mount; cbn [rng set_app]; destruct (Random.randomPiecesColor _) as [c r1];
    by destruct (Random.randomCoordinates r1).
Qed.

Lemma set_screen_pending (s : GameScreens) (w : World) : pending (set_screen s w) = pending w.
Proof.
  unfold set_screen. destruct (decide _), (decide _); try done;
    unfold mount; cbn [rng set_app]; destruct (Random.randomPiecesColor _) as [c r1];
    by destruct (Random.randomCoordinates r1).
Qed.

Lemma repaint_callback_app (owner : nat) (t : GameBoard.Timeout) (w : World) :
  app (repaint_callback owner t w) = app w /\ pending (repaint_callback owner t w) = pending w /\
  storage (repaint_callback owner t w) = storage w.
Proof. unfold repaint_callback. destruct (mounted w); [destruct (owned_by_mounted _ _)|]; done. Qed.

Lemma fire_timeout_app (p : Pending) (w : World) :
  (app (fire_timeout p w), storage (fire_timeout p w)) =
    (if GameBoard.to_correct (pt_timeout p) then App.incScore (app w) (storage w) else (app w, storage w)) /\
  pending (fire_timeout p w) = pending w.
Proof.
  unfold fire_timeout. destruct (repaint_callback_app (pt_owner p) (pt_timeout p)
    (if GameBoard.to_correct (pt_timeout p) then correct_callback (pt_owner p) w else w)) as (-> & -> & ->).
  destruct (GameBoard.to_correct _); [|done]. unfold correct_callback.
  destruct (App.incScore _ _) as [a' st']. destruct (Random.randomPiecesColor _) as [c r1].
  by destruct (Random.randomCoordinates r1).
Qed.

Lemma button_target_spec (s s' : GameScreens) (i : App.Intent) :
  button_target s i = Some s' -> App.spec_transition s i = Some s'.
Proof.
  unfold button_target. destruct (decide _); [done|].
  destruct (find _ _) as [[j s'']|] eqn:E; [|done]. intros [= <-].
  apply find_some in E as [Hin Hj]. apply bool_decide_eq_true in Hj. simpl in Hj. subst j.
  by apply App.buttons_transitions.
Qed.

(** Quantities that never decrease: a [NaN] high score stays [NaN], a
    numeric one only grows. *)
Definition hs_le (a b : option Z) : Prop :=
  match a, b with
  | Some h, Some h' => (h <= h')%Z
  | None, None => True
  | _, _ => False
  end.

Lemma hs_le_refl (a : option Z) : hs_le a a.
Proof. destruct a; simpl; lia. Qed.

Lemma hs_le_trans (a b c : option Z) : hs_le a b -> hs_le b c -> hs_le a c.
Proof. destruct a, b, c; simpl; lia. Qed.

(** The number of pending callbacks that will call [onCorrect]. *)
Definition count_correct (ps : list Pending) : nat :=
  length (filter (fun p => GameBoard.to_correct (pt_timeout p) = true) ps).

Section Claims.
Variable mode : Clock.SetStateMode.

Lemma step_highScore (w : World) (e : Event) :
  hs_le (App.highScore (app w)) (App.highScore (app (step mode w e))).
Proof.
  destruct e as [i| |dx dy|]; simpl.
  - destruct (button_target _ i); [rewrite set_screen_app|]; apply hs_le_refl.
  - destruct (mounted w); [|apply hs_le_refl]. destruct (Clock.interval _); [|apply hs_le_refl].
    destruct (Clock.interval_tick _ _) as [c' [|]]; [rewrite set_screen_app|]; apply hs_le_refl.
  - destruct (mounted w); [|apply hs_le_refl]. destruct (GameBoard.onClick _ _ _ _). apply hs_le_refl.
  - destruct (pending w) as [|p rest]; [apply hs_le_refl|].
    destruct (fire_timeout_app p (set_pending w rest)) as [E _].
    destruct (GameBoard.to_correct _); [|injection E as -> _; apply hs_le_refl].
    destruct (App.incScore_max (app (set_pending w rest)) (storage (set_pending w rest))) as [_ Hh].
    destruct (App.incScore _ _) as [a' st']. injection E as -> _. simpl in Hh. rewrite Hh.
    destruct (App.highScore (app w)); simpl; lia.
Qed.

(** C8: along any run of the application, the high score never
    decreases (and a [NaN] high score stays [NaN]). *)
Theorem highScore_monotone (w w' : World) :
  w ⇝*[step_rel mode] w' -> hs_le (App.highScore (app w)) (App.highScore (app w')).
Proof.
  apply (star_preorder (step_rel mode) (fun a b => hs_le (App.highScore (app a)) (App.highScore (app b))));
    [intros; apply hs_le_refl | intros ???; apply hs_le_trans |].
  intros a b [e ->]. apply step_highScore.
Qed.

(** C7: in every reachable state the [GameScreen] subtree is mounted
    exactly on the [BOARD] screen, its target is a cell of the board, its
    side is [WHITE] or [BLACK] (so its label is never [""]), and
    [localStorage] reads back as the high score. *)
Theorem reachable_world_state (w : World) :
  reachable mode w ->
  (App.screen (app w) = BOARD <-> is_Some (mounted w)) /\
  (forall m, mounted w = Some m -> on_board (target (gs m)) = true /\ is_side (color (gs m)) = true) /\
  App.loadHighScore (storage w) = App.highScore (app w).
Proof.
  intros Hr. destruct (reachable_inv mode w Hr) as (Hscr & Hm & Hst & _).
  split_and!; [exact Hscr | intros m E; destruct (Hm m E) as (? & ? & _); done | exact Hst].
Qed.

(** C6: every step leaves the screen as it is or moves it along one of
    the five transitions of the spec's Screen Navigator. *)
Theorem screen_step_allowed (w : World) (e : Event) :
  reachable mode w ->
  App.screen (app (step mode w e)) = App.screen (app w) \/
  exists i, App.spec_transition (App.screen (app w)) i = Some (App.screen (app (step mode w e))).
Proof.
  intros Hr. destruct (reachable_inv mode w Hr) as (Hscr & _).
  destruct e as [i| |dx dy|]; simpl.
  - destruct (button_target _ i) as [s'|] eqn:E; [|by left].
    right. exists i. rewrite set_screen_app. by apply button_target_spec.
  - destruct (mounted w) as [m|] eqn:Em; [|by left]. destruct (Clock.interval _); [|by left].
    destruct (Clock.interval_tick _ _) as [c' [|]]; [|by left].
    right. exists App.ClockDone. rewrite set_screen_app. simpl.
    assert (App.screen (app w) = BOARD) as -> by (apply Hscr; by eexists). done.
  - destruct (mounted w); [destruct (GameBoard.onClick _ _ _ _)|]; by left.
  - destruct (pending w) as [|p rest]; [by left|]. left.
    destruct (fire_timeout_app p (set_pending w rest)) as [E _].
    destruct (GameBoard.to_correct _); [|by injection E as -> _].
    destruct (App.incScore _ _) as [a' st'] eqn:Ei. injection E as -> _.
    unfold App.incScore in Ei. by injection Ei as <- _.
Qed.

(** ** The clock ends the session *)

Lemma run_intervals_unmounted (w : World) (n : nat) :
  mounted w = None -> run mode w (repeat IntervalFires n) = w.
Proof.
  intros H. induction n as [|n IH]; [done|]. unfold run in *. simpl. rewrite H. exact IH.
Qed.

Lemma run_intervals (n : nat) (w : World) (m : Mounted) :
  App.screen (app w) = BOARD -> mounted w = Some m ->
  App.screen (app (run mode w (repeat IntervalFires n))) =
    if (snd (Clock.run_ticks mode n (clock m)) =? 0)%nat then BOARD else END.
Proof.
  revert w m. induction n as [|n IH]; intros w m Hs Hm; [done|].
  change (run mode w (repeat IntervalFires (Datatypes.S n)))
    with (run mode (step mode w IntervalFires) (repeat IntervalFires n)).
  cbn [Clock.run_ticks]. simpl step. rewrite Hm.
  destruct (Clock.interval (clock m)) eqn:Ei.
  - destruct (Clock.interval_tick mode (clock m)) as [c' [|]] eqn:Et.
    + rewrite run_intervals_unmounted.
      * rewrite set_screen_app. destruct (Clock.run_ticks _ _ _). done.
      * unfold set_screen. simpl. rewrite Hs. by destruct (decide _).
    + rewrite (IH _ (mkMounted (gs m) c' (canvas m))); [|done|done].
      simpl. by destruct (Clock.run_ticks mode n c').
  - unfold Clock.interval_tick. rewrite Ei.
    rewrite (IH w m Hs Hm). by destruct (Clock.run_ticks mode n (clock m)).
Qed.

(** C5: after START, the session stays on the board until the clock's
    interval has fired [fire_tick mode GAME_SECONDS] times (60 with
    synchronous [setState], 61 with batching) and is on the game-over
    screen from then on, if nothing else happens. *)
Theorem session_ends_at_fire_tick (st : gmap string string) (r : Random.Rng) (n : nat) :
  App.screen (app (run mode (init_world st r) (Press App.StartClick :: repeat IntervalFires n))) =
    if (Z.of_nat n <? Clock.fire_tick mode GAME_SECONDS)%Z then BOARD else END.
Proof.
  change (run mode (init_world st r) (Press App.StartClick :: repeat IntervalFires n))
    with (run mode (step mode (init_world st r) (Press App.StartClick)) (repeat IntervalFires n)).
  assert (exists m, mounted (step mode (init_world st r) (Press App.StartClick)) = Some m /\
                    clock m = Clock.mkClock GAME_SECONDS true) as (m & Hm & Hc).
  { simpl. unfold set_screen, mount. simpl.
    destruct (Random.randomPiecesColor r) as [c r1]. destruct (Random.randomCoordinates r1) as [t r2].
    by eexists. }
  rewrite (run_intervals n _ m); [| reflexivity | exact Hm].
  rewrite Hc, Clock.run_ticks_running. simpl. by destruct (_ <? _)%Z.
Qed.

(** ** Callbacks outliving their round *)

Lemma timeout_step_score (w : World) (p : Pending) (rest : list Pending) :
  pending w = p :: rest ->
  App.score (app (step mode w TimeoutFires)) =
    (App.score (app w) + if GameBoard.to_correct (pt_timeout p) then 1 else 0)%Z /\
  App.screen (app (step mode w TimeoutFires)) = App.screen (app w) /\
  pending (step mode w TimeoutFires) = rest.
Proof.
  intros Hp. simpl. rewrite Hp.
  destruct (fire_timeout_app p (set_pending w rest)) as [E ->]. split_and!; [| |done];
    (destruct (GameBoard.to_correct _); [|injection E as -> _; simpl; (lia || done)]);
    destruct (App.incScore _ _) as [a' st'] eqn:Ei; injection E as -> _;
    unfold App.incScore in Ei; injection Ei as <- _; simpl; (lia || done).
Qed.

Lemma click_step (w : World) (m : Mounted) (dx dy : Z) :
  mounted w = Some m ->
  app (step mode w (CanvasClick dx dy)) = app w /\
  option_map gs (mounted (step mode w (CanvasClick dx dy))) = Some (gs m) /\
  pending (step mode w (CanvasClick dx dy)) =
    pending w ++ [mkPending (gs_id (gs m)) (snd (GameBoard.onClick (target (gs m)) dx dy (canvas m)))].
Proof.
  intros Hm. simpl. rewrite Hm. by destruct (GameBoard.onClick _ _ _ _).
Qed.

(** C1: a correct-click callback still adds a point when the round
    that scheduled it is over (its [GameScreen] unmounted by the end of
    the clock, QUIT or a later RETRY): the 200 ms [setTimeout] keeps a
    reference to [App.incScore], and nothing checks which round it
    belongs to; the screen and the mounted round are left as they are. *)
Theorem stale_correct_callback_scores (w : World) (p : Pending) (rest : list Pending) :
  pending w = p :: rest -> GameBoard.to_correct (pt_timeout p) = true ->
  owned_by_mounted w (pt_owner p) = false ->
  App.score (app (step mode w TimeoutFires)) = (App.score (app w) + 1)%Z /\
  App.screen (app (step mode w TimeoutFires)) = App.screen (app w) /\
  mounted (step mode w TimeoutFires) = mounted w.
Proof.
  intros Hp Hc Ho. destruct (timeout_step_score w p rest Hp) as (Hs & Hscr & _).
  rewrite Hc in Hs. split_and!; [done | done |].
  simpl. rewrite Hp. unfold fire_timeout. rewrite Hc. unfold correct_callback.
  destruct (App.incScore _ _) as [a' st']. destruct (Random.randomPiecesColor _) as [c r1].
  destruct (Random.randomCoordinates r1) as [t r2].
  unfold owned_by_mounted in Ho. unfold repaint_callback, owned_by_mounted. simpl.
  destruct (mounted w) as [m|]; [|done]. by rewrite Ho, Ho.
Qed.

(** C2: two clicks on the target within the 200 ms before the first
    callback runs both count: the target is replaced only when a
    callback fires, so both clicks are judged against the same target and
    each callback adds a point — one target, two points. *)
Theorem double_click_scores_twice (w : World) (m : Mounted) (dx dy : Z) :
  mounted w = Some m -> pending w = [] -> GameBoard.click_cell dx dy = target (gs m) ->
  App.score (app (run mode w [CanvasClick dx dy; CanvasClick dx dy; TimeoutFires; TimeoutFires])) =
    (App.score (app w) + 2)%Z.
Proof.
  intros Hm Hp Hc.
  set (w1 := step mode w (CanvasClick dx dy)).
  pose proof (click_step w m dx dy Hm) as (A1 & G1 & P1). fold w1 in A1, G1, P1.
  destruct (mounted w1) as [m1|] eqn:Em1; [|discriminate]. injection G1 as G1.
  set (w2 := step mode w1 (CanvasClick dx dy)).
  pose proof (click_step w1 m1 dx dy Em1) as (A2 & _ & P2). fold w2 in A2, P2.
  rewrite P1, Hp, G1 in P2. simpl in P2.
  change (run mode w [CanvasClick dx dy; CanvasClick dx dy; TimeoutFires; TimeoutFires])
    with (step mode (step mode w2 TimeoutFires) TimeoutFires).
  destruct (timeout_step_score _ _ _ P2) as (S3 & _ & P3).
  destruct (timeout_step_score _ _ _ P3) as (S4 & _ & _).
  rewrite S4, S3, A2, A1. cbn [pt_timeout].
  pose proof (fun ctx => proj2 (GameBoard.onClick_correct_iff (target (gs m)) dx dy ctx) Hc) as Hv.
  rewrite !Hv. lia.
Qed.

(** Running the whole timer queue adds one point per pending correct
    click and leaves the screen as it is. *)
Lemma run_timeouts (ps : list Pending) (w : World) :
  pending w = ps ->
  App.score (app (run mode w (repeat TimeoutFires (length ps)))) = (App.score (app w) + Z.of_nat (count_correct ps))%Z /\
  App.screen (app (run mode w (repeat TimeoutFires (length ps)))) = App.screen (app w) /\
  pending (run mode w (repeat TimeoutFires (length ps))) = [].
Proof.
  revert w. induction ps as [|p ps IH]; intros w Hp; [unfold run, count_correct; simpl; rewrite Hp; split_and!; [lia | done | done]|].
  change (run mode w (repeat TimeoutFires (length (p :: ps))))
    with (run mode (step mode w TimeoutFires) (repeat TimeoutFires (length ps))).
  destruct (timeout_step_score w p ps Hp) as (Hs & Hscr & Hpend).
  destruct (IH _ Hpend) as (Hs' & Hscr' & Hp'). rewrite Hs', Hscr', Hp', Hs, Hscr.
  unfold count_correct. rewrite filter_cons.
  destruct (GameBoard.to_correct _); simpl; split_and!; lia || done.
Qed.

(** C3: a correct-click callback that fires while the menu is shown
    sets [isNewHighScore] there whenever the new score passes the high
    score (a session that ended on the high score, or any score 0 with
    high score 0): [incScore] sets the flag whatever the screen, although
    the spec keeps it false away from the game-over screen and
    [changeScreen] cleared it on leaving that screen. *)
Theorem stale_callback_new_high_score_on_menu (w : World) (p : Pending) (rest : list Pending) (h : Z) :
  App.screen (app w) = MENU -> pending w = p :: rest -> GameBoard.to_correct (pt_timeout p) = true ->
  App.highScore (app w) = Some h -> (h <= App.score (app w))%Z ->
  App.screen (app (step mode w TimeoutFires)) = MENU /\
  App.isNewHighScore (app (step mode w TimeoutFires)) = true /\
  App.highScore (app (step mode w TimeoutFires)) = Some (App.score (app w) + 1)%Z.
Proof.
  intros Hm Hp Hc Hh Hle. cbn [step]. rewrite Hp.
  destruct (fire_timeout_app p (set_pending w rest)) as [E _]. rewrite Hc in E.
  destruct (App.incScore _ _) as [a' st'] eqn:Ei. injection E as -> _.
  unfold App.incScore in Ei. injection Ei as <- _. cbn. rewrite Hh, Hm. cbn.
  destruct (Z.ltb_spec h (App.score (app w) + 1)); [done | lia].
Qed.

(** C4: the callbacks pending when the game-over screen's RETRY starts a
    new round are credited to that round: the round that
    [changeScreen(BOARD)] starts at 0 holds, once they have fired, one
    point per correct click of the previous round still pending, where
    the spec discards stale callbacks. *)
Theorem retry_round_inherits_pending_points (w : World) :
  App.screen (app w) = END ->
  let w' := run mode w (Press App.RetryClick :: repeat TimeoutFires (length (pending w))) in
  App.screen (app w') = BOARD /\ App.score (app w') = Z.of_nat (count_correct (pending w)) /\ pending w' = [].
Proof.
  intros He. cbv zeta.
  change (run mode w (Press App.RetryClick :: repeat TimeoutFires (length (pending w))))
    with (run mode (step mode w (Press App.RetryClick)) (repeat TimeoutFires (length (pending w)))).
  assert (step mode w (Press App.RetryClick) = set_screen BOARD w) as E by (cbn [step]; by rewrite He).
  rewrite E. destruct (run_timeouts (pending w) (set_screen BOARD w)) as (Hs & Hscr & Hp);
    [apply set_screen_pending|].
  rewrite Hs, Hscr, Hp, set_screen_app. cbn. rewrite decide_True by done. split_and!; [done | lia | done].
Qed.

End Claims.

(** A fixed [Math.random] oracle: side [WHITE], target (2, 3). *)
Definition example_rng : Random.Rng :=
  Random.mkRng (fun i => match i with 1%nat => (2 * 2 ^ 49)%Z | 2%nat => (3 * 2 ^ 49)%Z | _ => 0%Z end) 0.

(** START, a correct click on (2, 3), then the clock runs out. *)
Definition after_last_second : World :=
  run Clock.LegacySync (init_world ∅ example_rng)
      ([Press App.StartClick; CanvasClick 170 250] ++ repeat IntervalFires 60).

Lemma stale_correct_callback_scores_witness :
  App.screen (app after_last_second) = END /\ App.score (app after_last_second) = 0%Z /\
  App.score (app (step Clock.LegacySync after_last_second TimeoutFires)) = 1%Z.
Proof.
  split_and!; [vm_compute; reflexivity | vm_compute; reflexivity |].
  rewrite (proj1 (stale_correct_callback_scores Clock.LegacySync after_last_second
                    (mkPending 0 (GameBoard.mkTimeout true 2 3 SQUARE_BLACK)) []
                    ltac:(vm_compute; reflexivity) eq_refl ltac:(vm_compute; reflexivity))).
  vm_compute. reflexivity.
Defined.

Lemma double_click_scores_twice_witness :
  let w := run Clock.LegacySync (init_world ∅ example_rng) [Press App.StartClick] in
  App.score (app (run Clock.LegacySync w
    [CanvasClick 170 250; CanvasClick 170 250; TimeoutFires; TimeoutFires])) = 2%Z.
Proof.
  cbv zeta.
  rewrite (double_click_scores_twice Clock.LegacySync _
             (mkMounted (mkGS 0 SIDE_WHITE (mkCoordinates 2 3))
                (Clock.componentDidMount (Clock.Clock_constructor GAME_SECONDS))
                (GameBoard.componentDidMount (mkCoordinates 2 3) GameBoard.blank_canvas))
             170 250); [vm_compute; reflexivity | vm_compute; reflexivity | reflexivity | reflexivity].
Defined.

Lemma stale_callback_new_high_score_on_menu_witness :
  let w := run Clock.LegacySync (init_world ∅ example_rng)
             [Press App.StartClick; CanvasClick 170 250; Press App.QuitClick; Press App.ExitClick] in
  App.screen (app (step Clock.LegacySync w TimeoutFires)) = MENU /\
  App.isNewHighScore (app (step Clock.LegacySync w TimeoutFires)) = true /\
  App.highScore (app (step Clock.LegacySync w TimeoutFires)) = Some (App.score (app w) + 1)%Z.
Proof.
  cbv zeta.
  apply (stale_callback_new_high_score_on_menu Clock.LegacySync _
           (mkPending 0 (GameBoard.mkTimeout true 2 3 SQUARE_BLACK)) [] 0);
    [vm_compute; reflexivity | vm_compute; reflexivity | reflexivity | vm_compute; reflexivity
    | vm_compute; congruence].
Defined.

Lemma retry_round_inherits_pending_points_witness :
  let w := run Clock.LegacySync (init_world ∅ example_rng)
             [Press App.StartClick; CanvasClick 170 250; Press App.QuitClick] in
  App.screen (app w) = END /\
  App.score (app (run Clock.LegacySync w (Press App.RetryClick :: repeat TimeoutFires (length (pending w))))) = 1%Z.
Proof.
  cbv zeta.
  set (w := run Clock.LegacySync (init_world ∅ example_rng)
              [Press App.StartClick; CanvasClick 170 250; Press App.QuitClick]).
  assert (He : App.screen (app w) = END) by (subst w; vm_compute; reflexivity).
  split; [exact He|].
  rewrite (proj1 (proj2 (retry_round_inherits_pending_points Clock.LegacySync w He))).
  subst w. vm_compute. reflexivity.
Defined.

Lemma highScore_monotone_witness :
  App.highScore (app (init_world ∅ example_rng)) = Some 0%Z /\
  hs_le (App.highScore (app (init_world ∅ example_rng)))
        (App.highScore (app (run Clock.LegacySync (init_world ∅ example_rng)
           [Press App.StartClick; CanvasClick 170 250; TimeoutFires]))).
Proof.
  split; [reflexivity|]. apply (highScore_monotone Clock.LegacySync), star_run.
Defined.

Lemma reachable_world_state_witness :
  let w := step Clock.Batched (init_world ∅ example_rng) (Press App.StartClick) in
  App.loadHighScore (storage w) = App.highScore (app w).
Proof.
  cbv zeta. apply (reachable_world_state Clock.Batched).
  exists ∅, example_rng. apply (star_run Clock.Batched _ [Press App.StartClick]).
Defined.

Lemma screen_step_allowed_witness :
  let w := step Clock.LegacySync (init_world ∅ example_rng) (Press App.StartClick) in
  App.screen (app (step Clock.LegacySync w (Press App.QuitClick))) = App.screen (app w) \/
  exists i, App.spec_transition (App.screen (app w)) i =
            Some (App.screen (app (step Clock.LegacySync w (Press App.QuitClick)))).
Proof.
  cbv zeta. apply (screen_step_allowed Clock.LegacySync).
  exists ∅, example_rng. apply (star_run Clock.LegacySync _ [Press App.StartClick]).
Defined.

End Game.
