(* ===== verification/Spec.v ===== *)
(** * Spec: the session controller of the specification

    An abstract state machine for sections 4.4 (Countdown Timer), 4.5
    (Session Controller) and 4.6 (Screen Navigator) of [spec.md].  It is
    not a translation of [src/src/App.js]: it is the contract the code is
    measured against in [Refinement].

    The state is the screen, the session's score, the high score, the
    [isNewHighScore] flag, the persisted high score and the active round
    (target, side and the timer's [secondsRemaining]) while a session
    runs.  Events are the user intents START, QUIT, RETRY and EXIT, a timer
    tick, and a click on a cell.  The random target generator is a
    nondeterministic choice of a valid cell and side, so [step] is a
    relation.  An event that does not apply to the current state (a click
    with no session, START away from the menu) leaves the state as it is,
    as section 6 says of every ignored event.

    Results: the spec's invariant ([inv]) holds in every state reachable
    from the initial one: a round exists exactly on the board screen, its
    target is valid, the persisted high score is the high score, the
    menu never shows a new high score, and a new high score is the
    current score. *)

From Stdlib Require Import ZArith Lia String.
From stdpp Require Import base decidable strings.
From S2P Require Import Prelude Squares Session.

Import Coordinates.

Module SessionSpec.

Record Round := mkRound { r_target : Coordinates; r_side : string; r_seconds : Z }.

Record State := mkState {
  s_screen : GameScreens;
  s_score : Z;
  s_high : Z;
  s_new : bool;
  s_saved : Z;            (** the value of [loadHighScore()] *)
  s_round : option Round
}.

Inductive Event := SStart | SQuit | SRetry | SExit | STick | SClick (c : Coordinates).

(** What [RandomTargetGenerator.generate()] may return. *)
Definition valid_target (t : Coordinates) (side : string) : bool := on_board t && is_side side.

(** The process start: [loadHighScore()] returned [h]. *)
Definition init (h : Z) : State := mkState MENU 0 h false h None.

(** [beginSession()]: score 0, flag cleared, a fresh target, [Timer.start(60)]. *)
Definition begin_session (s : State) (t : Coordinates) (side : string) : State :=
  mkState BOARD 0 (s_high s) false (s_saved s) (Some (mkRound t side 60)).

(** [onCorrectClick()]: one more point; a new high score is recorded,
    flagged and persisted; the target is replaced. *)
Definition on_correct (s : State) (r : Round) (t : Coordinates) (side : string) : State :=
  let sc := (s_score s + 1)%Z in
  let r' := Some (mkRound t side (r_seconds r)) in
  if (s_high s <? sc)%Z then mkState (s_screen s) sc sc true sc r'
  else mkState (s_screen s) sc (s_high s) (s_new s) (s_saved s) r'.

(** [onQuit()] and [onTimerDone()]: the session ends, the flag is kept. *)
Definition end_session (s : State) : State :=
  mkState END (s_score s) (s_high s) (s_new s) (s_saved s) None.

(** EXIT: the menu, with the flag force-reset (section 4.5's invariant). *)
Definition to_menu (s : State) : State :=
  mkState MENU (s_score s) (s_high s) false (s_saved s) None.

Definition tick_round (s : State) (r : Round) : State :=
  mkState (s_screen s) (s_score s) (s_high s) (s_new s) (s_saved s)
          (Some (mkRound (r_target r) (r_side r) (r_seconds r - 1))).

(** The events that apply in a state. *)
Definition enabled (s : State) (e : Event) : bool :=
  match e with
  | SStart => bool_decide (s_screen s = MENU)
  | SRetry | SExit => bool_decide (s_screen s = END)
  | SQuit => bool_decide (s_screen s = BOARD)
  | STick | SClick _ => bool_decide (is_Some (s_round s))
  end.

Inductive step : State -> Event -> State -> Prop :=
| step_start s t side :
    s_screen s = MENU -> valid_target t side = true -> step s SStart (begin_session s t side)
| step_retry s t side :
    s_screen s = END -> valid_target t side = true -> step s SRetry (begin_session s t side)
| step_quit s : s_screen s = BOARD -> step s SQuit (end_session s)
| step_exit s : s_screen s = END -> step s SExit (to_menu s)
| step_tick s r : s_round s = Some r -> (0 < r_seconds r)%Z -> step s STick (tick_round s r)
| step_done s r : s_round s = Some r -> (r_seconds r <= 0)%Z -> step s STick (end_session s)
| step_hit s r t side :
    s_round s = Some r -> valid_target t side = true ->
    step s (SClick (r_target r)) (on_correct s r t side)
| step_miss s r c : s_round s = Some r -> c <> r_target r -> step s (SClick c) s
| step_ignored s e : enabled s e = false -> step s e s.

(** A step, or no step for an input the spec has no event for. *)
Definition step_opt (s : State) (oe : option Event) (s' : State) : Prop :=
  match oe with
  | Some e => step s e s'
  | None => s' = s
  end.

(** Runs of the machine, labelled with their events. *)
Inductive steps : State -> list (option Event) -> State -> Prop :=
| steps_nil s : steps s [] s
| steps_cons s oe s1 oes s2 : step_opt s oe s1 -> steps s1 oes s2 -> steps s (oe :: oes) s2.

Lemma on_correct_round (s : State) (r : Round) (t : Coordinates) (side : string) :
  s_round (on_correct s r t side) = Some (mkRound t side (r_seconds r)).
Proof. unfold on_correct. by destruct (_ <? _)%Z. Qed.

(** ** The invariant of the specification *)

Definition round_valid (o : option Round) : Prop :=
  forall r, o = Some r -> valid_target (r_target r) (r_side r) = true.

Definition inv (s : State) : Prop :=
  (s_screen s = BOARD <-> is_Some (s_round s)) /\
  round_valid (s_round s) /\
  s_saved s = s_high s /\
  (s_screen s = MENU -> s_new s = false) /\
  (s_new s = true -> s_high s = s_score s).

Lemma init_inv (h : Z) : inv (init h).
Proof. split_and!; [split; [done | by intros []] | by intros ? | done | done | done]. Qed.

Lemma on_correct_inv (s : State) (r : Round) (t : Coordinates) (side : string) :
  inv s -> s_round s = Some r -> valid_target t side = true -> inv (on_correct s r t side).
Proof.
  intros (Hb & Hv & Hsv & Hm & Hn) Hr Ht. rewrite Hr in Hb.
  assert (s_screen s = BOARD) as Hs by (apply Hb; by eexists).
  unfold on_correct. cbm_zcase; split_and!; simpl; rewrite ?Hs;
    try (split; [intros; by eexists | done]); try (intros r' [= <-]; exact Ht); try done.
  intros E. rewrite (Hn E) in *. lia.
Qed.

Lemma begin_session_inv (s : State) (t : Coordinates) (side : string) :
  inv s -> valid_target t side = true -> inv (begin_session s t side).
Proof.
  intros (_ & _ & Hsv & _ & _) Ht.
  split_and!; simpl; [split; [intros; by eexists | done] | by intros r [= <-] | done..].
Qed.

Lemma end_session_inv (s : State) : inv s -> inv (end_session s).
Proof.
  intros (_ & _ & Hsv & _ & Hn).
  split_and!; simpl; [split; [done | by intros []] | by intros ? | done | done | exact Hn].
Qed.

Lemma to_menu_inv (s : State) : inv s -> inv (to_menu s).
Proof.
  intros (_ & _ & Hsv & _ & _).
  split_and!; simpl; [split; [done | by intros []] | by intros ? | done..].
Qed.

Lemma tick_round_inv (s : State) (r : Round) : inv s -> s_round s = Some r -> inv (tick_round s r).
Proof.
  intros (Hb & Hv & Hsv & Hm & Hn) Hr. rewrite Hr in Hb.
  split_and!; simpl; [split; [intros; by eexists | by intros; apply Hb]
                     | intros r' [= <-]; simpl; by apply Hv | done..].
Qed.

Lemma spec_step_inv (s : State) (e : Event) (s' : State) : inv s -> step s e s' -> inv s'.
Proof.
  intros Hinv Hs. destruct Hs;
    eauto using begin_session_inv, end_session_inv, to_menu_inv, tick_round_inv, on_correct_inv.
Qed.

Lemma spec_step_opt_inv (s : State) (oe : option Event) (s' : State) : inv s -> step_opt s oe s' -> inv s'.
Proof. destruct oe as [e|]; simpl; [apply spec_step_inv | by intros ? ->]. Qed.

Lemma spec_steps_inv (s : State) (oes : list (option Event)) (s' : State) : inv s -> steps s oes s' -> inv s'.
Proof. intros H Hs. induction Hs as [|s oe s1 oes s2 H1 _ IH]; [done|]. apply IH. by eapply spec_step_opt_inv. Qed.

End SessionSpec.
