(* ===== verification/Refinement.v ===== *)
(** * Refinement: the application implements the spec's session controller

    [Game.step] refines the abstract machine [SessionSpec.step] of [Spec]
    on the runs in which every click's 200 ms callback fires before the
    next input, the timing the spec's section 5 describes ("processed to
    completion before the next event"), and with React's batched
    [setState], whose timer rule is the spec's (the tick compares the
    value from before the decrement; see [Clock]).

    An [Input] is a press of a navigation button, a firing of the clock's
    interval, or a click on the canvas together with the firing of its
    callback ([input_step]).  [refines w s] relates a world to a spec
    state: same screen, score, high score, flag and persisted value, no
    pending callback, and the mounted [GameScreen] holds the spec's round
    (target, side, and a running clock showing the spec's seconds).

    Results, all under batched [setState] (the mode [input_step] fixes):
    [refines] holds at the start, and every input is matched by the spec
    event [spec_event] assigns to it (forward simulation,
    [input_step_refines]); so every run of inputs is a run of the spec
    ([run_refines]) and the spec's invariant holds of the code on such
    runs: the menu never shows a new high score
    ([prompt_runs_keep_spec_invariant]), in contrast to
    [Game.stale_callback_new_high_score_on_menu].  Under synchronous
    [setState] the simulation fails ([legacy_clock_breaks_refinement]). *)

From Stdlib Require Import ZArith Lia String List.
From stdpp Require Import base decidable strings gmap list.
From S2P Require Import Prelude JsRuntime Squares Random Clock Board Session Game Spec.

Import Coordinates.

Module Refinement.

Import Game SessionSpec.

Inductive Input :=
| IPress (i : App.Intent)
| ITick
| IClick (dx dy : Z).

(** One input, with the callback of a click run at once. *)
Definition input_step (w : World) (i : Input) : World :=
  match i with
  | IPress b => Game.step Clock.Batched w (Press b)
  | ITick => Game.step Clock.Batched w IntervalFires
  | IClick dx dy => Game.step Clock.Batched (Game.step Clock.Batched w (CanvasClick dx dy)) TimeoutFires
  end.

Definition run_inputs (w : World) (ins : list Input) : World := fold_left input_step ins w.

(** The spec event of an input; the clock's [onDone] has no button. *)
Definition spec_event (i : Input) : option Event :=
  match i with
  | IPress App.StartClick => Some SStart
  | IPress App.QuitClick => Some SQuit
  | IPress App.RetryClick => Some SRetry
  | IPress App.ExitClick => Some SExit
  | IPress App.ClockDone => None
  | ITick => Some STick
  | IClick dx dy => Some (SClick (GameBoard.click_cell dx dy))
  end.

Definition round_rel (om : option Mounted) (ro : option Round) : Prop :=
  match om, ro with
  | Some m, Some r =>
      target (gs m) = r_target r /\ color (gs m) = r_side r /\ clock m = Clock.mkClock (r_seconds r) true
  | None, None => True
  | _, _ => False
  end.

(** The [App] state, the store and the timer queue. *)
Definition app_rel (w : World) (s : State) : Prop :=
  App.screen (app w) = s_screen s /\ App.score (app w) = s_score s /\
  App.highScore (app w) = Some (s_high s) /\ App.isNewHighScore (app w) = s_new s /\
  App.loadHighScore (storage w) = Some (s_saved s) /\ pending w = [].

Definition refines (w : World) (s : State) : Prop :=
  app_rel w s /\ round_rel (mounted w) (s_round s) /\ world_inv w /\ SessionSpec.inv s.

(** ** How [set_screen] changes the mounted subtree and the store *)

Lemma set_screen_storage (sc : GameScreens) (w : World) : storage (set_screen sc w) = storage w.
Proof.
  unfold set_screen. destruct (decide _), (decide _); try done;
    unfold mount; cbn [rng set_app]; destruct (Random.randomPiecesColor _) as [c r1];
    by destruct (Random.randomCoordinates r1).
Qed.

Lemma set_screen_unmounts (sc : GameScreens) (w : World) :
  App.screen (app w) = BOARD -> sc <> BOARD -> mounted (set_screen sc w) = None.
Proof. intros Hb Hs. unfold set_screen. rewrite Hb. by destruct (decide _), (decide _). Qed.

Lemma set_screen_not_board (sc : GameScreens) (w : World) :
  mounted w = None -> sc <> BOARD -> mounted (set_screen sc w) = None.
Proof. intros Hm Hs. unfold set_screen. by destruct (decide _), (decide _). Qed.

(** Entering the board mounts a [GameScreen] with a valid fresh target
    and a clock running from [GAME_SECONDS]. *)
Lemma set_screen_mounts (w : World) :
  App.screen (app w) <> BOARD ->
  exists m, mounted (set_screen BOARD w) = Some m /\
    valid_target (target (gs m)) (color (gs m)) = true /\ clock m = Clock.mkClock GAME_SECONDS true.
Proof.
  intros Hb. unfold set_screen. destruct (decide _); [done|]. destruct (decide _); [|done].
  unfold mount. cbn [rng set_app]. pose proof (random_pair_valid (rng w)) as Hr.
  destruct (Random.randomPiecesColor _) as [c r1]. destruct (Random.randomCoordinates r1) as [t r2].
  eexists. split_and!; [done | simpl; unfold valid_target; destruct Hr as [-> ->]; done | done].
Qed.

Lemma interval_tick_batched (secs : Z) :
  Clock.interval_tick Clock.Batched (Clock.mkClock secs true) =
    if (secs <=? 0)%Z then (Clock.mkClock (secs - 1) false, true) else (Clock.mkClock (secs - 1) true, false).
Proof. reflexivity. Qed.

(** ** The simulation, one kind of input at a time *)

Lemma refines_round (w : World) (s : State) :
  refines w s -> (mounted w = None <-> s_round s = None).
Proof. intros (_ & Hr & _). destruct (mounted w), (s_round s); done. Qed.

Lemma refines_begin (w : World) (s : State) :
  refines w s -> s_screen s <> BOARD ->
  exists t side, valid_target t side = true /\ refines (set_screen BOARD w) (begin_session s t side).
Proof.
  intros ((Hscr & Hsc & Hh & Hn & Hl & Hp) & _ & Hw & Hi) Hb.
  destruct (set_screen_mounts w) as (m & Hm & Hv & Hc); [by rewrite Hscr|].
  exists (target (gs m)), (color (gs m)). split; [done|].
  unfold refines, app_rel. rewrite set_screen_app, set_screen_storage, set_screen_pending, Hm.
  split_and!; simpl; try done.
  - by apply set_screen_inv.
  - by apply begin_session_inv.
Qed.

Lemma refines_end (w : World) (s : State) :
  app_rel w s -> world_inv w -> SessionSpec.inv s -> s_screen s = BOARD ->
  refines (set_screen END w) (end_session s).
Proof.
  intros (Hscr & Hsc & Hh & Hn & Hl & Hp) Hw Hi Hb.
  unfold refines, app_rel.
  rewrite set_screen_app, set_screen_storage, set_screen_pending, set_screen_unmounts by (rewrite ?Hscr; done).
  split_and!; simpl; try done.
  - by apply set_screen_inv.
  - by apply end_session_inv.
Qed.

Lemma refines_menu (w : World) (s : State) :
  refines w s -> s_screen s = END -> refines (set_screen MENU w) (to_menu s).
Proof.
  intros R He. pose proof R as ((Hscr & Hsc & Hh & Hn & Hl & Hp) & _ & Hw & Hi).
  assert (s_round s = None) as Hr by (destruct Hi as [Hb _]; destruct (s_round s); [|done];
                                      rewrite He in Hb; by assert (END = BOARD) by (apply Hb; by eexists)).
  unfold refines, app_rel.
  rewrite set_screen_app, set_screen_storage, set_screen_pending,
    set_screen_not_board by (try apply (refines_round w s R); done).
  split_and!; simpl; try done.
  - by apply set_screen_inv.
  - by apply to_menu_inv.
Qed.

Lemma ignored_event (s : State) (e : Event) : enabled s e = false -> step_opt s (Some e) s.
Proof. apply step_ignored. Qed.

Lemma press_refines (w : World) (s : State) (b : App.Intent) :
  refines w s -> exists s', step_opt s (spec_event (IPress b)) s' /\ refines (input_step w (IPress b)) s'.
Proof.
  intros R. pose proof R as ((Hscr & _) & _ & _ & Hi). cbn [input_step Game.step]. rewrite Hscr.
  destruct (s_screen s) eqn:Es, b; cbn -[set_screen]; try (by exists s);
    try (exists s; split; [apply ignored_event; unfold enabled; rewrite Es | ]; done).
  - destruct (refines_begin w s R) as (t & side & Hv & R'); [by rewrite Es|].
    eexists. split; [by apply step_start | exact R'].
  - destruct R as (Ha & _ & Hw & _).
    exists (end_session s). split; [by apply step_quit | by apply refines_end].
  - destruct (refines_begin w s R) as (t & side & Hv & R'); [by rewrite Es|].
    eexists. split; [by apply step_retry | exact R'].
  - exists (to_menu s). split; [by apply step_exit | by apply refines_menu].
Qed.

Lemma set_mounted_app_rel (w : World) (s : State) (m : option Mounted) :
  app_rel w s -> app_rel (set_mounted w m) s.
Proof. done. Qed.

Lemma app_rel_same (w : World) (s : State) (m' : option Mounted) (r' : Random.Rng) (n : nat) :
  app_rel w s -> app_rel (mkWorld (app w) (storage w) m' [] r' n) s.
Proof. by intros (? & ? & ? & ? & ? & ?). Qed.

Lemma tick_refines (w : World) (s : State) :
  refines w s -> exists s', step_opt s (spec_event ITick) s' /\ refines (input_step w ITick) s'.
Proof.
  intros R. pose proof R as (Ha & Hr & Hw & Hi). cbn [input_step Game.step spec_event step_opt].
  destruct (mounted w) as [m|] eqn:Em, (s_round s) as [r|] eqn:Er; try done.
  - destruct Hr as (Ht & Hc & Hk). rewrite Hk, interval_tick_batched. cbn [Clock.interval].
    assert (s_screen s = BOARD) as Hb by (apply Hi; by rewrite Er).
    destruct (Z.leb_spec (r_seconds r) 0).
    + exists (end_session s). split; [by eapply step_done|].
      apply refines_end; [by apply set_mounted_app_rel | by apply set_mounted_inv | done | done].
    + exists (tick_round s r). split; [by eapply step_tick|].
      split_and!; [by apply set_mounted_app_rel | | by apply set_mounted_inv | by apply tick_round_inv].
      cbn. by rewrite Ht, Hc.
  - exists s. split; [apply step_ignored; unfold enabled; by rewrite Er | done].
Qed.

Lemma input_step_inv (w : World) (i : Input) : world_inv w -> world_inv (input_step w i).
Proof. intros H. destruct i; cbn [input_step]; by repeat apply Game.step_inv. Qed.

Lemma owned_self (w : World) (m : Mounted) : mounted w = Some m -> owned_by_mounted w (gs_id (gs m)) = true.
Proof. intros E. unfold owned_by_mounted. rewrite E. by apply bool_decide_eq_true. Qed.

(** [incScore] does what [onCorrectClick()] does to the session. *)
Lemma incScore_refines (w : World) (s : State) (r : Round) (t : Coordinates) (side : string)
      (m' : option Mounted) (rng' : Random.Rng) (n : nat) :
  app_rel w s -> SessionSpec.inv s -> s_round s = Some r ->
  app_rel (mkWorld (fst (App.incScore (app w) (storage w))) (snd (App.incScore (app w) (storage w))) m' [] rng' n)
          (on_correct s r t side).
Proof.
  intros (Hscr & Hsc & Hh & Hn & Hl & _) (_ & _ & Hsv & _ & Hnew) _.
  unfold app_rel, App.incScore, on_correct. cbn [fst snd App.score App.highScore App.isNewHighScore App.screen].
  rewrite Hh, Hsc. cbn [App.js_gt]. cbm_zcase; split_and!; try done.
  - by apply App.load_saved.
  - destruct (s_new s) eqn:E; [|done]. specialize (Hnew eq_refl). lia.
Qed.

Lemma click_refines (w : World) (s : State) (dx dy : Z) :
  refines w s -> exists s', step_opt s (spec_event (IClick dx dy)) s' /\ refines (input_step w (IClick dx dy)) s'.
Proof.
  intros R. pose proof (input_step_inv w (IClick dx dy) (proj1 (proj2 (proj2 R)))) as Hw'.
  destruct R as (Ha & Hr & Hw & Hi). pose proof Ha as (_ & _ & _ & _ & _ & Hp).
  cbn [spec_event step_opt]. revert Hw'. cbn [input_step Game.step].
  destruct (mounted w) as [m|] eqn:Em, (s_round s) as [r|] eqn:Er; try done.
  2: { rewrite Hp. intros _. exists s. split; [apply step_ignored; unfold enabled; by rewrite Er|].
       split_and!; [done | by rewrite Em, Er | done | done]. }
  destruct Hr as (Ht & Hc & Hk).
  pose proof (GameBoard.onClick_correct_iff (target (gs m)) dx dy (canvas m)) as Hv.
  destruct (GameBoard.onClick _ _ _ _) as [ctx' t] eqn:Eo. cbn [snd] in Hv.
  rewrite Hp. cbn. unfold fire_timeout. cbn [pt_timeout pt_owner].
  destruct (GameBoard.to_correct t) eqn:Ec;
    unfold correct_callback, repaint_callback, owned_by_mounted, set_pending, set_mounted;
    cbn [app storage rng mounted pending gs gs_id next_id];
    rewrite ?(bool_decide_eq_true_2 (gs_id (gs m) = gs_id (gs m))) by done.
  - pose proof (random_pair_valid (rng w)) as Hrv.
    destruct (Random.randomPiecesColor (rng w)) as [col r1]. destruct (Random.randomCoordinates r1) as [tgt r2].
    assert (valid_target tgt col = true) as Hvt by (unfold valid_target; by destruct Hrv as [-> ->]).
    pose proof (incScore_refines w s r tgt col (Some (mkMounted (mkGS (gs_id (gs m)) col tgt) (clock m) ctx'))
                  r2 (next_id w) Ha Hi Er) as Hinc.
    destruct (App.incScore (app w) (storage w)) as [a' st']. cbn [fst snd] in Hinc.
    cbn [gs gs_id mounted app storage clock canvas]. rewrite (bool_decide_eq_true_2 (gs_id (gs m) = gs_id (gs m))) by done.
    intros Hw'. exists (on_correct s r tgt col).
    split; [rewrite (proj1 Hv eq_refl), Ht; by apply step_hit|].
    cbn [pending rng next_id mounted app storage gs clock canvas] in *.
    split_and!; [exact Hinc | cbn; rewrite on_correct_round; cbn; by rewrite Hk | exact Hw' | by apply on_correct_inv].
  - intros Hw'. exists s. split.
    + apply (step_miss s r); [exact Er|]. rewrite <- Ht. intros E. apply Hv in E. congruence.
    + split_and!; [by eapply app_rel_same | cbn; by rewrite Er, Ht, Hc, Hk | exact Hw' | done].
Qed.

Lemma input_sim (w : World) (s : State) (i : Input) :
  refines w s -> exists s', step_opt s (spec_event i) s' /\ refines (input_step w i) s'.
Proof. destruct i; [apply press_refines | apply tick_refines | apply click_refines]. Qed.

Lemma run_sim (w : World) (s : State) (ins : list Input) :
  refines w s -> exists s', steps s (map spec_event ins) s' /\ refines (run_inputs w ins) s'.
Proof.
  revert w s. induction ins as [|i ins IH]; intros w s R; [exists s; split; [constructor | done]|].
  destruct (input_sim w s i R) as (s1 & H1 & R1). destruct (IH _ _ R1) as (s2 & H2 & R2).
  exists s2. split; [by econstructor | exact R2].
Qed.

Lemma init_refines (st : gmap string string) (r : Random.Rng) (h : Z) :
  App.loadHighScore st = Some h -> refines (init_world st r) (SessionSpec.init h).
Proof.
  intros Hl. split_and!; try done; [by apply init_world_inv | apply init_inv].
Qed.

(** ** Properties *)

(** C32: forward simulation: from related states, every input of the
    application (a button press, a firing of the clock's interval, or a
    click whose 200 ms callback runs before the next input) leads to a
    state related to a successor of the spec's state by the spec event of
    that input, with React's batched [setState]. *)
Theorem input_step_refines (w : World) (s : State) (i : Input) :
  refines w s -> exists s', step_opt s (spec_event i) s' /\ refines (input_step w i) s'.
Proof. exact (input_sim w s i). Qed.

(** C33: with batched [setState], every run of the application from its
    start, with a stored high score [h] and callbacks that fire before the
    next input, is a run of
    the spec's session controller from its initial state with high score
    [h], and ends in a state related to the spec's. *)
Theorem run_refines (st : gmap string string) (r : Random.Rng) (h : Z) (ins : list Input) :
  App.loadHighScore st = Some h ->
  exists s', steps (SessionSpec.init h) (map spec_event ins) s' /\
             refines (run_inputs (init_world st r) ins) s'.
Proof. intros Hl. apply run_sim, init_refines, Hl. Qed.

(** C34: with batched [setState] and callbacks that fire before the next
    input, the application keeps the spec's invariant: the
    menu never shows a new high score, a new high score is the current
    score, and the store reads back as the high score; the stale
    callbacks of [Game] are what breaks it. *)
Theorem prompt_runs_keep_spec_invariant (st : gmap string string) (r : Random.Rng) (h : Z) (ins : list Input) :
  App.loadHighScore st = Some h ->
  let w := run_inputs (init_world st r) ins in
  (App.screen (app w) = MENU -> App.isNewHighScore (app w) = false) /\
  (App.isNewHighScore (app w) = true -> App.highScore (app w) = Some (App.score (app w))) /\
  App.loadHighScore (storage w) = App.highScore (app w).
Proof.
  intros Hl. cbv zeta.
  destruct (run_sim _ _ ins (init_refines st r h Hl)) as (s' & Hs & (Hscr & Hsc & Hh & Hn & Hst & _) & _).
  destruct (spec_steps_inv _ _ _ (init_inv h) Hs) as (_ & _ & Hsv & Hm & Hnew).
  rewrite Hscr, Hn, Hh, Hsc, Hst, Hsv. split_and!; [done | intros E; by rewrite (Hnew E) | done].
Qed.

(** C38: the refinement needs batched updates: with synchronous
    [setState] (React 17 outside event handlers) the clock's check reads
    the decremented value, so after START and 59 firings, in a state
    related to the spec's (one second left), the next firing ends the
    session while every spec tick from one second keeps it on the board. *)
Theorem legacy_clock_breaks_refinement :
  let w := run_inputs (init_world ∅ example_rng) (IPress App.StartClick :: repeat ITick 59) in
  exists s, refines w s /\
    forall s', step s STick s' -> ~ refines (Game.step Clock.LegacySync w IntervalFires) s'.
Proof.
  cbv zeta.
  assert (Hl : App.loadHighScore (∅ : gmap string string) = Some 0%Z) by reflexivity.
  destruct (run_sim _ _ (IPress App.StartClick :: repeat ITick 59) (init_refines ∅ example_rng 0 Hl))
    as (s & _ & R).
  set (w := run_inputs (init_world ∅ example_rng) (IPress App.StartClick :: repeat ITick 59)) in *.
  assert (App.screen (app w) = BOARD /\ option_map clock (mounted w) = Some (Clock.mkClock 1 true) /\
          App.screen (app (Game.step Clock.LegacySync w IntervalFires)) = END) as (Hb & Hc & He)
    by (subst w; vm_compute; split_and!; reflexivity).
  set (w' := Game.step Clock.LegacySync w IntervalFires) in *. clearbody w' w.
  exists s. split; [exact R|]. intros s' Hs ((Hscr' & _) & _).
  destruct R as ((Hscr & _) & Hr & _). rewrite He in Hscr'.
  destruct (mounted w) as [m|], (s_round s) as [r|] eqn:Er; try done. destruct Hr as (_ & _ & Hk).
  injection Hc as Hc. rewrite Hc in Hk. injection Hk as Hsec.
  inversion Hs as [| | | |s0 r0 Hr0 Hpos| s0 r0 Hr0 Hle| | |s0 e0 Hd]; subst.
  - rewrite Er in Hr0. injection Hr0 as <-. cbn in Hscr'. congruence.
  - rewrite Er in Hr0. injection Hr0 as <-. lia.
  - unfold enabled in Hd. rewrite Er in Hd. by apply bool_decide_eq_false in Hd as [].
Qed.

Lemma input_step_refines_witness :
  refines (init_world ∅ example_rng) (SessionSpec.init 0) /\
  exists s', step_opt (SessionSpec.init 0) (spec_event (IPress App.StartClick)) s' /\
             refines (input_step (init_world ∅ example_rng) (IPress App.StartClick)) s'.
Proof.
  split; [apply init_refines; reflexivity|].
  apply input_step_refines. apply init_refines. reflexivity.
Defined.

Lemma run_refines_witness :
  exists s', steps (SessionSpec.init 0) (map spec_event [IPress App.StartClick; IClick 170 250; ITick]) s' /\
             refines (run_inputs (init_world ∅ example_rng) [IPress App.StartClick; IClick 170 250; ITick]) s'.
Proof. apply (run_refines ∅ example_rng 0). reflexivity. Defined.

Lemma prompt_runs_keep_spec_invariant_witness :
  let w := run_inputs (init_world ∅ example_rng)
             [IPress App.StartClick; IClick 170 250; IPress App.QuitClick; IPress App.ExitClick] in
  App.screen (app w) = MENU /\ App.isNewHighScore (app w) = false.
Proof.
  cbv zeta. split; [vm_compute; reflexivity|].
  apply (prompt_runs_keep_spec_invariant ∅ example_rng 0); [reflexivity | vm_compute; reflexivity].
Defined.

End Refinement.
