(* ===== verification/Screens.v ===== *)
(** * Screens: what each screen shows

    Models the render functions of [src/src/App.js] that turn the state
    into what the player sees: [MainMenuScreen] (lines 94-106, the high
    score), [GameScreen.render] (lines 125-178: the side, in the colour of
    that side, the target's label [target.toChessBoardSquare(color)], the
    score, and the [Clock]'s [minutes:seconds]), [GameOverScreen] (lines
    250-282: the "New High Score!" banner and the score) and [App.render]
    (lines 337-370: which screen is shown).  Markup, layout and styles are
    left out; the texts and colours that carry information are kept.  A
    number is rendered by React as its [toString], and [NaN] as ["NaN"].

    Results: on the board, the label shown names exactly the cell a click
    must hit to be judged correct ([board_label_identifies_target]), and
    during a session the clock shows [1:0], then [0:59] down to [0:1] (and
    [0:0] under batched updates), never a negative time
    ([session_clock_display]). *)

From Stdlib Require Import ZArith Lia String List.
From stdpp Require Import base decidable strings gmap list.
From S2P Require Import Prelude JsRuntime Squares Random Clock Board Session Game.

Import Coordinates.

Module Screens.

Import Game.

(** [{n}] in JSX for a JavaScript number. *)
Definition js_render_number (n : option Z) : string :=
  match n with
  | Some k => js_number_to_string k
  | None => "NaN"
  end.

Record MenuView := mkMenuView { mv_highScore : string }.

(** [MainMenuScreen]: [<div id="highScore">{highScore}</div>]. *)
Definition MainMenuScreen (highScore : option Z) : MenuView :=
  mkMenuView (js_render_number highScore).

(** [color === SIDE.WHITE ? SQUARE.WHITE : SQUARE.BLACK] *)
Definition side_color (color : string) : string :=
  if String.eqb color SIDE_WHITE then SQUARE_WHITE else SQUARE_BLACK.

Record BoardView := mkBoardView {
  bv_side : string;
  bv_side_color : string;
  bv_square : string;
  bv_score : string;
  bv_clock : Z * Z
}.

(** [GameScreen.render]: side, label and score, and the [Clock] child. *)
Definition GameScreen_render (g : GameScreenState) (score : Z) (c : Clock.Clock) : BoardView :=
  mkBoardView (color g) (side_color (color g)) (toChessBoardSquare (target g) (color g))
              (js_number_to_string score) (Clock.render c).

Record EndView := mkEndView { ev_banner : option string; ev_score : string }.

(** [GameOverScreen]: [{isNewHighScore && <div>New High Score!</div>}] and the score. *)
Definition GameOverScreen (score : Z) (isNewHighScore : bool) : EndView :=
  mkEndView (if isNewHighScore then Some "New High Score!" else None) (js_number_to_string score).

Inductive View :=
| ViewMenu (v : MenuView)
| ViewBoard (v : BoardView)
| ViewEnd (v : EndView).

(** [App.render]: [switch (this.state.screen)]; on [BOARD] the mounted
    [GameScreen] renders (there is none only in unreachable worlds). *)
Definition App_render (w : World) : option View :=
  match App.screen (app w) with
  | BOARD =>
      match mounted w with
      | Some m => Some (ViewBoard (GameScreen_render (gs m) (App.score (app w)) (clock m)))
      | None => None
      end
  | END => Some (ViewEnd (GameOverScreen (App.score (app w)) (App.isNewHighScore (app w))))
  | MENU => Some (ViewMenu (MainMenuScreen (App.highScore (app w))))
  end.

(** ** The label and the verdict *)

Lemma label_decodes (t : Coordinates) (p : string) (c : Coordinates) :
  on_board t = true -> is_side p = true ->
  fromChessBoardSquare (toChessBoardSquare t p) p = Some c <-> c = t.
Proof. intros Ht Hp. rewrite decode_label by done. split; congruence. Qed.

Lemma label_nonempty (t : Coordinates) (p : string) :
  on_board t = true -> is_side p = true -> toChessBoardSquare t p <> "".
Proof. intros Ht Hp E. pose proof (decode_label t p Ht Hp) as D. rewrite E in D. discriminate. Qed.

(** ** The clock during a session *)

Section ClockRun.
Variable mode : Clock.SetStateMode.

(** Before its firing tick, [n] firings of the interval leave the board
    mounted with the clock [n] seconds further down. *)
Lemma run_intervals_running (n : nat) (w : World) (m : Mounted) (s : Z) :
  App.screen (app w) = BOARD -> mounted w = Some m -> clock m = Clock.mkClock s true ->
  (Z.of_nat n < Clock.fire_tick mode s)%Z ->
  App.screen (app (run mode w (repeat IntervalFires n))) = BOARD /\
  mounted (run mode w (repeat IntervalFires n)) = Some (mkMounted (gs m) (Clock.mkClock (s - Z.of_nat n) true) (canvas m)).
Proof.
  revert w m s. induction n as [|n IH]; intros w m s Hs Hm Hc Hn.
  - destruct m as [g c ctx]. cbn in *. subst c. rewrite Hm. split; [done|]. do 3 f_equal. lia.
  - change (run mode w (repeat IntervalFires (Datatypes.S n)))
      with (run mode (step mode w IntervalFires) (repeat IntervalFires n)).
    rewrite Nat2Z.inj_succ in Hn. pose proof (Clock.fire_tick_pos mode s).
    cbn [step]. rewrite Hm, Hc. cbn [Clock.interval]. rewrite Clock.interval_tick_running.
    destruct (Z.leb_spec (Clock.fire_tick mode s) 1); [lia|].
    edestruct (IH (set_mounted w (Some (mkMounted (gs m) (Clock.mkClock (s - 1) true) (canvas m))))
                  (mkMounted (gs m) (Clock.mkClock (s - 1) true) (canvas m)) (s - 1)%Z) as [H1 H2];
      [done | done | done | rewrite Clock.fire_tick_pred by lia; lia |].
    split; [exact H1|]. rewrite H2. cbn [gs canvas]. do 3 f_equal. lia.
Qed.

End ClockRun.

(** ** Properties *)

Section Claims.
Variable mode : Clock.SetStateMode.

(** C35: on the board screen of every reachable state, the label shown
    is not empty and names, from the side shown, exactly the cells a click
    must hit to be judged correct: a click is correct if and only if the
    label, read from the displayed side, decodes to the clicked cell. *)
Theorem board_label_identifies_target (w : World) :
  reachable mode w -> App.screen (app w) = BOARD ->
  exists m v, mounted w = Some m /\ App_render w = Some (ViewBoard v) /\ bv_square v <> "" /\
    forall dx dy, GameBoard.to_correct (snd (GameBoard.onClick (target (gs m)) dx dy (canvas m))) = true <->
                  fromChessBoardSquare (bv_square v) (bv_side v) = Some (GameBoard.click_cell dx dy).
Proof.
  intros Hr Hb. destruct (reachable_inv mode w Hr) as (Hscr & Hm & _).
  destruct (mounted w) as [m|] eqn:E; [|by destruct (proj1 Hscr Hb)].
  destruct (Hm m eq_refl) as (Ht & Hp & _).
  eexists m, _. unfold App_render. rewrite Hb, E. split_and!; [done | done | by apply label_nonempty |].
  intros dx dy. cbn. rewrite GameBoard.onClick_correct_iff, label_decodes by done. done.
Qed.

(** C36: after START, while the session lasts (fewer firings of the
    interval than [fire_tick mode GAME_SECONDS]), the board shows the
    clock [minutes:seconds] as [1:0] at the start and [0:(60 - n)] after
    [n > 0] firings: never a negative time, and [0:0] only under batched
    updates, on the last firing before [onDone]. *)
Theorem session_clock_display (st : gmap string string) (r : Random.Rng) (n : nat) :
  (Z.of_nat n < Clock.fire_tick mode GAME_SECONDS)%Z ->
  exists v, App_render (run mode (init_world st r) (Press App.StartClick :: repeat IntervalFires n)) = Some (ViewBoard v) /\
    bv_clock v = (if (n =? 0)%nat then (1, 0) else (0, 60 - Z.of_nat n))%Z.
Proof.
  intros Hn.
  change (run mode (init_world st r) (Press App.StartClick :: repeat IntervalFires n))
    with (run mode (step mode (init_world st r) (Press App.StartClick)) (repeat IntervalFires n)).
  assert (exists m, App.screen (app (step mode (init_world st r) (Press App.StartClick))) = BOARD /\
                    mounted (step mode (init_world st r) (Press App.StartClick)) = Some m /\
                    clock m = Clock.mkClock GAME_SECONDS true) as (m & Hs & Hm & Hc).
  { simpl. unfold set_screen, mount. simpl.
    destruct (Random.randomPiecesColor r) as [c r1]. destruct (Random.randomCoordinates r1) as [t r2].
    by eexists. }
  destruct (run_intervals_running mode n _ m GAME_SECONDS Hs Hm Hc Hn) as [Hb Hm'].
  eexists. unfold App_render. rewrite Hb, Hm'. split; [done|].
  assert (Clock.fire_tick mode GAME_SECONDS <= 61)%Z by (unfold GAME_SECONDS; destruct mode; simpl; lia).
  cbn. unfold GAME_SECONDS. destruct (Nat.eqb_spec n 0) as [->|Hn0]; [reflexivity|].
  unfold Clock.render, math_floor_div, js_rem. cbn [Clock.seconds].
  f_equal; [apply Z.div_small | apply Z.rem_small]; lia.
Qed.

End Claims.

(** C37: after a reload, the menu shows the high score that was saved:
    [incScore] wrote [n.toString()], and [MainMenuScreen] renders the
    number the constructor read back with [parseInt]. *)
Theorem menu_shows_saved_high_score (st : gmap string string) (r : Random.Rng) (n : Z) :
  App_render (init_world (setItem st App.HIGH_SCORE_KEY (js_number_to_string n)) r) =
    Some (ViewMenu (mkMenuView (js_number_to_string n))).
Proof.
  unfold App_render, init_world, App.App_constructor. cbn [app App.screen App.highScore].
  by rewrite (proj1 (App.load_saved st n)).
Qed.

Lemma board_label_identifies_target_witness :
  let w := step Clock.Batched (init_world ∅ example_rng) (Press App.StartClick) in
  App.screen (app w) = BOARD /\
  exists m v, mounted w = Some m /\ App_render w = Some (ViewBoard v) /\ bv_square v <> "" /\
    forall dx dy, GameBoard.to_correct (snd (GameBoard.onClick (target (gs m)) dx dy (canvas m))) = true <->
                  fromChessBoardSquare (bv_square v) (bv_side v) = Some (GameBoard.click_cell dx dy).
Proof.
  cbv zeta. split; [vm_compute; reflexivity|].
  apply (board_label_identifies_target Clock.Batched); [|vm_compute; reflexivity].
  exists ∅, example_rng. apply (star_run Clock.Batched _ [Press App.StartClick]).
Defined.

Lemma session_clock_display_witness :
  exists v, App_render (run Clock.Batched (init_world ∅ example_rng)
                          (Press App.StartClick :: repeat IntervalFires 60)) = Some (ViewBoard v) /\
    bv_clock v = (0, 0)%Z.
Proof. apply (session_clock_display Clock.Batched ∅ example_rng 60). vm_compute. reflexivity. Defined.

End Screens.
